(** * tc-project-service: the work-item creation route

    A shallow embedding of [src/routes/workItems/create.js]: the Express
    handler that resolves the phase / work-stream linkage and the project,
    enforces the per-phase product quota, inserts the PhaseProduct inside a
    Sequelize transaction, and then publishes the creation event to the
    RabbitMQ bus and to the in-process emitter before answering 201.

    JavaScript objects are finite maps from property names to values, the
    relational store is a record of tables, and the promise chain is a small
    state-and-rejection monad whose state holds the database, the two
    variables the handler mutates ([data], [newPhaseProduct]) and the
    chronological list of calls made to the collaborators. *)

From Stdlib Require Import ZArith List String.
From stdpp Require Import base gmap strings list fin_maps pretty.
Import ListNotations.

Open Scope Z_scope.
Open Scope string_scope.

(** ** Values, objects and lodash helpers *)

(** A JSON value as the handler sees it.  Integers, strings and [null] are
    told apart because the queries compare them; any other JSON value
    (fractional numbers, booleans, arrays, nested objects such as [details])
    is only carried around and is kept as its JSON text. *)
Inductive value :=
| VNull
| VNum (n : Z)
| VStr (s : string)
| VJson (text : string).

#[global] Instance value_eq_dec : EqDecision value.
Proof. solve_decision. Defined.

Abbreviation obj := (gmap string value) (only parsing).

(** Reading a column of a row: a column that is absent reads as [null]. *)
Definition field (row : obj) (k : string) : value :=
  default VNull (row !! k).

(** [_.assign(target, source)]: every property of [source], in order, is
    written into [target]. *)
Definition assign (target : obj) (source : list (string * value)) : obj :=
  fold_left (fun acc kv => <[kv.1 := kv.2]> acc) source target.

(** [_.omit(object, paths)]. *)
Definition omit (object : obj) (paths : list string) : obj :=
  fold_left (fun acc k => delete k acc) paths object.

(** [_.parseInt] applied to a path parameter that is already an integral
    number returns that number. *)
Definition parseInt (n : Z) : Z := n.

(** ** Errors, requests and the calls made to collaborators *)

(** [new Error(message)] with the optional [status] the handler sets. *)
Record JsError := mkError {
  message : string;
  status : option Z
}.

(** The parts of the Express request the handler reads. *)
Record Request := mkRequest {
  req_id : string;
  params_projectId : Z;
  params_workStreamId : Z;
  params_workId : Z;
  body_param : obj;
  authUser_userId : value
}.

(** [util.wrapResponse(id, content, version, status)].
    Modelled from the spec: [util] is not among the sources; the envelope
    holds the request id, the payload, a version marker and the status. *)
Record Envelope := wrapResponse {
  env_id : string;
  env_content : obj;
  env_version : Z;
  env_status : Z
}.

(** What a call to [pubsub.publish] or [app.emit] does: it returns (perhaps
    handing back a promise that rejects later, which the handler never
    looks at), or it throws synchronously. *)
Inductive CallOutcome :=
| Returns (rejectsLater : option JsError)
| Throws (e : JsError).

(** The observable calls of one request, in the order they are made. *)
Inductive Effect :=
| LogDebug (fmt : string) (args : list value)
| Publish (routingKey : string) (payload : obj) (correlationId : string)
| Emit (event : string) (req : Request) (created : obj)
| Respond (code : Z) (body : Envelope)
| Next (err : JsError).

Definition is_publish (e : Effect) : bool :=
  match e with Publish _ _ _ => true | _ => false end.
Definition is_emit (e : Effect) : bool :=
  match e with Emit _ _ _ => true | _ => false end.
Definition is_respond (e : Effect) : bool :=
  match e with Respond _ _ => true | _ => false end.
Definition is_next (e : Effect) : bool :=
  match e with Next _ => true | _ => false end.

(** The created entity an outgoing call carries, if any. *)
Definition entity_of (e : Effect) : option obj :=
  match e with
  | Publish _ payload _ => Some payload
  | Emit _ _ created => Some created
  | Respond _ body => Some (env_content body)
  | _ => None
  end.

(** ** The relational store *)

(** The tables behind the four models, the association between phases and
    work streams, and what the database generates on insert.
    Modelled from the spec: the model declarations are not among the
    sources; the association that the [include] joins through is kept as
    the set of linked (phase id, work stream id) pairs. *)
Record Store := mkStore {
  Project : list obj;
  ProjectPhase : list obj;
  WorkStream : list obj;
  phase_work_streams : list (Z * Z);
  PhaseProduct : list obj;
  next_id : Z;
  clock : string
}.

(** A [where] object: the listed columns must equal the listed values
    ([{ $eq: null }] is the comparison with [null]). *)
Abbreviation where_clause := (list (string * value)) (only parsing).

Definition matches (w : where_clause) (row : obj) : bool :=
  forallb (fun kv => bool_decide (field row kv.1 = kv.2)) w.

(** A model declared [paranoid] has [deletedAt IS NULL] added to every
    query by the ORM; one that is not has its [where] applied as written. *)
Definition scoped (paranoid : bool) (w : where_clause) : where_clause :=
  if paranoid then w ++ [("deletedAt", VNull)] else w.

Definition associated (db : Store) (phase ws : obj) : bool :=
  existsb (fun l => bool_decide (field phase "id" = VNum l.1)
                    && bool_decide (field ws "id" = VNum l.2))
          (phase_work_streams db).

(** [Model.findOne({ where })]. *)
Definition findOne (paranoid : bool) (table : list obj) (w : where_clause)
  : option obj :=
  List.find (matches (scoped paranoid w)) table.

(** [ProjectPhase.findOne({ where, include: [{ model: WorkStream, where }] })]:
    an include that carries a [where] is an inner join. *)
Definition findOne_include (paranoid paranoid_inc : bool) (db : Store)
    (w inc_w : where_clause) : option obj :=
  List.find
    (fun phase =>
       matches (scoped paranoid w) phase
       && existsb (fun ws => matches (scoped paranoid_inc inc_w) ws
                             && associated db phase ws)
                  (WorkStream db))
    (ProjectPhase db).

(** [Model.count({ where })]. *)
Definition count (paranoid : bool) (table : list obj) (w : where_clause) : Z :=
  Z.of_nat (length (List.filter (matches (scoped paranoid w)) table)).

(** [PhaseProduct.create(data)].
    Modelled from the spec: the record is persisted with the submitted
    values and the system-assigned [id], timestamps and (unset) soft-delete
    marker, and the persisted record is handed back. *)
Definition persisted (db : Store) (data : obj) : obj :=
  <["deletedAt" := VNull]>
    (<["updatedAt" := VStr (clock db)]>
       (<["createdAt" := VStr (clock db)]>
          (<["id" := VNum (next_id db)]> data))).

Definition create (db : Store) (data : obj) : obj * Store :=
  let row := persisted db data in
  (row, mkStore (Project db) (ProjectPhase db) (WorkStream db)
                (phase_work_streams db) (PhaseProduct db ++ [row])
                (next_id db + 1) (clock db)).

(** ** The promise chain *)

(** What one request mutates: the database, the object [data] (which is
    [req.body.param] itself, not a copy), the variable [newPhaseProduct],
    and the calls made so far. *)
Record World := mkWorld {
  db : Store;
  data : obj;
  newPhaseProduct : option obj;
  trace : list Effect
}.

Inductive Settled (A : Type) :=
| Resolved (a : A)
| Rejected (e : JsError).
Arguments Resolved {A} a.
Arguments Rejected {A} e.

Definition Promise (A : Type) : Type := World -> World * Settled A.

Definition resolve {A} (a : A) : Promise A := fun w => (w, Resolved a).

Definition throw {A} (e : JsError) : Promise A := fun w => (w, Rejected e).

(** [p.then(f)]. *)
Definition then_ {A B} (p : Promise A) (f : A -> Promise B) : Promise B :=
  fun w =>
    match p w with
    | (w', Resolved a) => f a w'
    | (w', Rejected e) => (w', Rejected e)
    end.

(** [p.catch(h)]. *)
Definition catch {A} (p : Promise A) (h : JsError -> Promise A) : Promise A :=
  fun w =>
    match p w with
    | (w', Resolved a) => (w', Resolved a)
    | (w', Rejected e) => h e w'
    end.

Notation "x <~ p ;; q" := (then_ p (fun x => q))
  (at level 100, p at next level, right associativity).
Notation "p ;; q" := (then_ p (fun _ => q))
  (at level 100, right associativity).

Definition get_db : Promise Store := fun w => (w, Resolved (db w)).
Definition set_db (d : Store) : Promise unit :=
  fun w => (mkWorld d (data w) (newPhaseProduct w) (trace w), Resolved tt).
Definition get_data : Promise obj := fun w => (w, Resolved (data w)).
Definition set_data (o : obj) : Promise unit :=
  fun w => (mkWorld (db w) o (newPhaseProduct w) (trace w), Resolved tt).
Definition get_newPhaseProduct : Promise (option obj) :=
  fun w => (w, Resolved (newPhaseProduct w)).
Definition set_newPhaseProduct (o : option obj) : Promise unit :=
  fun w => (mkWorld (db w) (data w) o (trace w), Resolved tt).
Definition call (e : Effect) : Promise unit :=
  fun w => (mkWorld (db w) (data w) (newPhaseProduct w) (trace w ++ [e]),
            Resolved tt).

(** [sequelize.transaction(callback)]: the writes of a callback whose
    promise rejects are rolled back; the calls it made are not undone.
    Modelled from the spec: the set-up of the ORM is not among the sources
    and the handler hands no transaction to its queries; that they run
    inside it is the specification's word. *)
Definition transaction {A} (callback : Promise A) : Promise A :=
  fun w =>
    match callback w with
    | (w', Resolved a) => (w', Resolved a)
    | (w', Rejected e) =>
        (mkWorld (db w) (data w') (newPhaseProduct w') (trace w'), Rejected e)
    end.

(** Reading a property of [newPhaseProduct]; of [null] it is a TypeError. *)
Definition nullDeref : JsError :=
  mkError "Cannot read property of null" None.

Definition the_newPhaseProduct : Promise obj :=
  o <~ get_newPhaseProduct ;;
  match o with
  | Some p => resolve p
  | None => throw nullDeref
  end.

(** ** Configuration and collaborators *)

Record Env := mkEnv {
  (** [config.maxPhaseProductCount] *)
  maxPhaseProductCount : Z;
  (** [EVENT.ROUTING_KEY.PROJECT_PHASE_PRODUCT_ADDED] *)
  PROJECT_PHASE_PRODUCT_ADDED : string;
  (** the [paranoid] option of each model declaration *)
  paranoid_ProjectPhase : bool;
  paranoid_WorkStream : bool;
  paranoid_Project : bool;
  paranoid_PhaseProduct : bool;
  (** [req.app.services.pubsub.publish(key, payload, { correlationId })] *)
  pubsub_publish : string -> obj -> string -> CallOutcome;
  (** [req.app.emit(event, { req, created })] *)
  app_emit : string -> Request -> obj -> CallOutcome
}.

(** The outcome of a collaborator call, as the caller experiences it. *)
Definition outcome (o : CallOutcome) : Promise unit :=
  match o with
  | Returns _ => resolve tt
  | Throws e => throw e
  end.

(** ** The handler *)

(** [_.cloneDeep] and [instance.get({ plain: true })] keep every value. *)
Definition cloneDeep (o : obj) : obj := o.
Definition get_plain (instance : obj) : obj := instance.

Section Handler.
Variable env : Env.

Definition KEY : string := PROJECT_PHASE_PRODUCT_ADDED env.

(** *** The queries, as written in the handler *)

Definition linkage_where (projectId phaseId : Z) : where_clause :=
  [("id", VNum phaseId); ("projectId", VNum projectId)].

Definition include_where (projectId workStreamId : Z) : where_clause :=
  [("id", VNum workStreamId); ("projectId", VNum projectId)].

Definition project_where (projectId : Z) : where_clause :=
  [("id", VNum projectId); ("deletedAt", VNull)].

Definition count_where (projectId phaseId : Z) : where_clause :=
  [("projectId", VNum projectId); ("phaseId", VNum phaseId);
   ("deletedAt", VNull)].

Definition ProjectPhase_findOne (w inc_w : where_clause)
  : Promise (option obj) :=
  d <~ get_db ;;
  resolve (findOne_include (paranoid_ProjectPhase env)
             (paranoid_WorkStream env) d w inc_w).

Definition Project_findOne (w : where_clause) : Promise (option obj) :=
  d <~ get_db ;;
  resolve (findOne (paranoid_Project env) (Project d) w).

Definition PhaseProduct_count (w : where_clause) : Promise Z :=
  d <~ get_db ;;
  resolve (count (paranoid_PhaseProduct env) (PhaseProduct d) w).

Definition PhaseProduct_create (o : obj) : Promise obj :=
  d <~ get_db ;;
  set_db (create d o).2 ;;
  resolve (create d o).1.

(** *** The three rejections *)

Definition linkageNotFound (projectId workStreamId phaseId : Z) : JsError :=
  mkError ("project work stream not found for project id " +:+ pretty projectId
           +:+ " and work stream " +:+ pretty workStreamId
           +:+ " and phase id " +:+ pretty phaseId)
          (Some 404).

Definition projectNotFound (projectId : Z) : JsError :=
  mkError ("project not found for project id " +:+ pretty projectId)
          (Some 404).

Definition quotaExceeded : JsError :=
  mkError ("the number of products per phase cannot exceed "
           +:+ pretty (maxPhaseProductCount env))
          (Some 400).

(** *** The transactional part: lines 56-122 *)

(** The callback handed to [sequelize.transaction]. *)

Definition workflow (projectId workStreamId phaseId : Z) : Promise unit :=
  existing <~ ProjectPhase_findOne (linkage_where projectId phaseId)
                (include_where projectId workStreamId) ;;
  existingProject <~
    match existing with
    | None => throw (linkageNotFound projectId workStreamId phaseId)
    | Some _ => Project_findOne (project_where projectId)
    end ;;
  productCount <~
    match existingProject with
    | None => throw (projectNotFound projectId)
    | Some project =>
        d <~ get_data ;;
        set_data (assign d
          [("phaseId", VNum phaseId);
           ("projectId", VNum projectId);
           ("directProjectId", field project "directProjectId");
           ("billingAccountId", field project "billingAccountId")]) ;;
        PhaseProduct_count (count_where projectId phaseId)
    end ;;
  if productCount >=? maxPhaseProductCount env
  then throw quotaExceeded
  else
    d <~ get_data ;;
    _newPhaseProduct <~ PhaseProduct_create d ;;
    set_newPhaseProduct (Some (cloneDeep _newPhaseProduct)) ;;
    p <~ the_newPhaseProduct ;;
    call (LogDebug "new work created (id# %d, name: %s)"
            [field p "id"; field p "name"]) ;;
    set_newPhaseProduct (Some (get_plain p)) ;;
    p <~ the_newPhaseProduct ;;
    set_newPhaseProduct (Some (omit p ["deletedAt"; "utm"])).

Definition createWorkItem (projectId workStreamId phaseId : Z)
  : Promise unit :=
  transaction (workflow projectId workStreamId phaseId).

(** *** After the transaction: lines 123-134 *)

Variable req : Request.

(** [req] as a callee sees it: [req.body.param] is the object [data]. *)
Definition current_req : Promise Request :=
  d <~ get_data ;;
  resolve (mkRequest (req_id req) (params_projectId req)
             (params_workStreamId req) (params_workId req) d
             (authUser_userId req)).

Definition sendEventsAndRespond : Promise unit :=
  p <~ the_newPhaseProduct ;;
  call (LogDebug "Sending event to RabbitMQ bus for phase product %d"
          [field p "id"]) ;;
  p <~ the_newPhaseProduct ;;
  call (Publish KEY p (req_id req)) ;;
  outcome (pubsub_publish env KEY p (req_id req)) ;;
  p <~ the_newPhaseProduct ;;
  call (LogDebug "Sending event to Kafka bus for phase product %d"
          [field p "id"]) ;;
  r <~ current_req ;;
  p <~ the_newPhaseProduct ;;
  call (Emit KEY r p) ;;
  outcome (app_emit env KEY r p) ;;
  p <~ the_newPhaseProduct ;;
  call (Respond 201 (wrapResponse (req_id req) p 1 201)).

(** *** The whole middleware: lines 41-136 *)

Definition handler_chain : Promise unit :=
  let projectId := parseInt (params_projectId req) in
  let workStreamId := parseInt (params_workStreamId req) in
  let phaseId := parseInt (params_workId req) in
  d <~ get_data ;;
  set_data (assign d
    [("projectId", VNum projectId);
     ("phaseId", VNum phaseId);
     ("createdBy", authUser_userId req);
     ("updatedBy", authUser_userId req)]) ;;
  set_newPhaseProduct None ;;
  catch (createWorkItem projectId workStreamId phaseId ;;
         sendEventsAndRespond)
        (fun err => call (Next err)).

(** The request arrives with [req.body.param] as [data], nothing created
    and nothing called yet. *)
Definition arrival (store : Store) : World :=
  mkWorld store (body_param req) None [].

Definition handler (store : Store) : World :=
  (handler_chain (arrival store)).1.

End Handler.

(** ** Reading a run *)

(** The path parameters, parsed. *)
Definition projectId_of (req : Request) : Z := parseInt (params_projectId req).
Definition workStreamId_of (req : Request) : Z :=
  parseInt (params_workStreamId req).
Definition phaseId_of (req : Request) : Z := parseInt (params_workId req).

(** [data] when the transaction starts: the payload with the default values
    of lines 48-53 assigned. *)
Definition defaulted (req : Request) : obj :=
  assign (body_param req)
    [("projectId", VNum (projectId_of req));
     ("phaseId", VNum (phaseId_of req));
     ("createdBy", authUser_userId req);
     ("updatedBy", authUser_userId req)].

Definition entry (req : Request) (store : Store) : World :=
  mkWorld store (defaulted req) None [].

(** The transactional part, run as the handler runs it. *)
Definition run_createWorkItem (env : Env) (req : Request) (store : Store)
  : World * Settled unit :=
  createWorkItem env (projectId_of req) (workStreamId_of req) (phaseId_of req)
    (entry req store).

(** What the three queries return on a given store. *)
Definition existingLinkage (env : Env) (store : Store)
    (projectId workStreamId phaseId : Z) : option obj :=
  findOne_include (paranoid_ProjectPhase env) (paranoid_WorkStream env) store
    (linkage_where projectId phaseId) (include_where projectId workStreamId).

Definition existingProject (env : Env) (store : Store) (projectId : Z)
  : option obj :=
  findOne (paranoid_Project env) (Project store) (project_where projectId).

Definition productCount (env : Env) (store : Store) (projectId phaseId : Z)
  : Z :=
  count (paranoid_PhaseProduct env) (PhaseProduct store)
    (count_where projectId phaseId).

(** [data] after the enrichment of lines 90-95. *)
Definition enriched (req : Request) (project : obj) : obj :=
  assign (defaulted req)
    [("phaseId", VNum (phaseId_of req));
     ("projectId", VNum (projectId_of req));
     ("directProjectId", field project "directProjectId");
     ("billingAccountId", field project "billingAccountId")].

(** The row the insert persists, and the copy that is published. *)
Definition created_row (req : Request) (store : Store) (project : obj) : obj :=
  persisted store (enriched req project).

Definition sanitized (req : Request) (store : Store) (project : obj) : obj :=
  omit (created_row req store project) ["deletedAt"; "utm"].

(** [req] once [data] has been enriched in place. *)
Definition req_enriched (req : Request) (project : obj) : Request :=
  mkRequest (req_id req) (params_projectId req) (params_workStreamId req)
    (params_workId req) (enriched req project) (authUser_userId req).

(** ** The store, in the words of the specification *)

(** Some Phase row with this id and project is joined to some WorkStream
    row with this id and project (soft-deleted rows included). *)
Definition Linked (store : Store) (projectId workStreamId phaseId : Z) : Prop :=
  exists phase ws : obj,
    In phase (ProjectPhase store) /\ In ws (WorkStream store) /\
    field phase "id" = VNum phaseId /\
    field phase "projectId" = VNum projectId /\
    field ws "id" = VNum workStreamId /\
    field ws "projectId" = VNum projectId /\
    In (phaseId, workStreamId) (phase_work_streams store).

(** A Project row with this id whose soft-delete marker is unset. *)
Definition LiveProject (store : Store) (projectId : Z) (project : obj) : Prop :=
  In project (Project store) /\
  field project "id" = VNum projectId /\
  field project "deletedAt" = VNull.

(** The number of PhaseProduct rows of the pair that are not soft-deleted. *)
Definition nonDeletedCount (store : Store) (projectId phaseId : Z) : Z :=
  Z.of_nat (length (filter
    (fun row : obj => field row "projectId" = VNum projectId /\
                      field row "phaseId" = VNum phaseId /\
                      field row "deletedAt" = VNull)
    (PhaseProduct store))).

(** A text occurs inside a message. *)
Definition mentions (m : string) (text : string) : Prop :=
  exists before after : string, m = before +:+ text +:+ after.

(** How often calls of one kind occur in a trace. *)
Definition times (kind : Effect -> bool) (t : list Effect) : nat :=
  length (List.filter kind t).

(** ** The scenarios of the specification, as data *)

Module Scenario.

Definition row (columns : list (string * value)) : obj :=
  list_to_map columns.

Definition project1 : obj :=
  row [("id", VNum 1); ("directProjectId", VNum 7);
       ("billingAccountId", VNum 9); ("deletedAt", VNull)].

Definition project1_deleted : obj :=
  row [("id", VNum 1); ("directProjectId", VNum 7);
       ("billingAccountId", VNum 9);
       ("deletedAt", VStr "2019-06-01T00:00:00Z")].

Definition phase100 : obj :=
  row [("id", VNum 100); ("projectId", VNum 1); ("deletedAt", VNull)].

Definition phase100_deleted : obj :=
  row [("id", VNum 100); ("projectId", VNum 1);
       ("deletedAt", VStr "2019-06-01T00:00:00Z")].

Definition workStream10 : obj :=
  row [("id", VNum 10); ("projectId", VNum 1); ("deletedAt", VNull)].

Definition workStream10_deleted : obj :=
  row [("id", VNum 10); ("projectId", VNum 1);
       ("deletedAt", VStr "2019-06-01T00:00:00Z")].

(** A work stream with the requested id that belongs to another project. *)
Definition workStream10_elsewhere : obj :=
  row [("id", VNum 10); ("projectId", VNum 2); ("deletedAt", VNull)].

Definition product (id : Z) (deletedAt : value) : obj :=
  row [("id", VNum id); ("projectId", VNum 1); ("phaseId", VNum 100);
       ("name", VStr "Earlier"); ("type", VStr "product");
       ("deletedAt", deletedAt)].

Definition store_with (projects phases streams products : list obj) : Store :=
  mkStore projects phases streams [(100, 10)] products 500
    "2020-01-01T00:00:00Z".

(** No product yet; one live product beside a soft-deleted one; two live. *)
Definition store0 : Store :=
  store_with [project1] [phase100] [workStream10] [].

Definition store1 : Store :=
  store_with [project1] [phase100] [workStream10]
    [product 498 VNull; product 499 (VStr "2019-06-01T00:00:00Z")].

Definition store2 : Store :=
  store_with [project1] [phase100] [workStream10]
    [product 498 VNull; product 499 VNull].

Definition store_bad_linkage : Store :=
  store_with [project1] [phase100] [workStream10_elsewhere] [].

Definition store_deleted_project : Store :=
  store_with [project1_deleted] [phase100] [workStream10] [].

Definition store_deleted_phase : Store :=
  store_with [project1] [phase100_deleted] [workStream10] [].

Definition store_deleted_workStream : Store :=
  store_with [project1] [phase100] [workStream10_deleted] [].

(** The payload of the scenario, with a caller-supplied
    [directProjectId] and [billingAccountId] that differ from the
    project's, and a caller-supplied [utm]. *)
Definition payload : obj :=
  row [("name", VStr "Design"); ("type", VStr "product");
       ("directProjectId", VNum 3); ("billingAccountId", VNum 4);
       ("utm", VJson "{}")].

Definition req : Request := mkRequest "req-1" 1 10 100 payload (VNum 42).

Definition boom : JsError := mkError "bus unavailable" None.

Definition env_with (paranoid : bool) (publish emit : CallOutcome) : Env :=
  mkEnv 2 "PROJECT_PHASE_PRODUCT_ADDED" paranoid paranoid paranoid paranoid
    (fun _ _ _ => publish) (fun _ _ _ => emit).

Definition env : Env := env_with false (Returns None) (Returns None).
Definition env_paranoid : Env := env_with true (Returns None) (Returns None).
Definition env_publish_throws : Env :=
  env_with false (Throws boom) (Returns None).
Definition env_emit_throws : Env :=
  env_with false (Returns None) (Throws boom).
Definition env_rejects_later : Env :=
  env_with false (Returns (Some boom)) (Returns (Some boom)).

End Scenario.

(** ** Requests served one after the other *)

Module Serving.

(** The store after the handler has served the requests in turn. *)
Definition serve (env : Env) (reqs : list Request) (store : Store) : Store :=
  fold_left (fun st req => db (handler env req st)) reqs store.

(** No pair of project and phase holds more live products than the
    configured limit. *)
Definition within_quota (env : Env) (store : Store) : Prop :=
  forall projectId phaseId,
    nonDeletedCount store projectId phaseId <= maxPhaseProductCount env.

(** The property names the handler itself assigns into [data]: the four
    of lines 48-53 and the two more of lines 90-95. *)
Definition defaults_assigned : list string :=
  ["projectId"; "phaseId"; "createdBy"; "updatedBy"].

Definition assigned : list string :=
  (defaults_assigned ++ ["directProjectId"; "billingAccountId"])%list.

(** Two environments with the same limit and the same model options; the
    buses and the routing key may differ. *)
Definition same_settings (env env' : Env) : Prop :=
  maxPhaseProductCount env = maxPhaseProductCount env' /\
  paranoid_ProjectPhase env = paranoid_ProjectPhase env' /\
  paranoid_WorkStream env = paranoid_WorkStream env' /\
  paranoid_Project env = paranoid_Project env' /\
  paranoid_PhaseProduct env = paranoid_PhaseProduct env'.

(** The scenario's environment with another limit. *)
Definition env_limit (limit : Z) : Env :=
  mkEnv limit "PROJECT_PHASE_PRODUCT_ADDED" false false false false
    (fun _ _ _ => Returns None) (fun _ _ _ => Returns None).

(** A request for the same project under another phase. *)
Definition req_other_phase : Request :=
  mkRequest "req-2" 1 10 101 Scenario.payload (VNum 42).

End Serving.

(** ** Store calls that can fail *)

(** The handler again, with every store call a promise that may reject:
    the two lookups, the count, the insert, and the commit that
    [sequelize.transaction] issues once the callback has resolved.  With no
    fault this is the handler above. *)
Module Fallible.

(** For each store call of a run, the error it rejects with, if it does. *)
Record Faults := mkFaults {
  linkage_lookup : option JsError;
  project_lookup : option JsError;
  product_count : option JsError;
  product_insert : option JsError;
  commit : option JsError
}.

Definition none : Faults := mkFaults None None None None None.

(** A store call: rejected with its fault, or carried out. *)
Definition attempt {A} (fault : option JsError) (p : Promise A) : Promise A :=
  match fault with
  | Some e => throw e
  | None => p
  end.

(** [sequelize.transaction(callback)]: a callback that rejects is rolled
    back; one that resolves is committed, and a commit that fails is
    rolled back too and rejects the transaction's promise. *)
Definition transaction {A} (commit_fault : option JsError)
    (callback : Promise A) : Promise A :=
  fun w =>
    match callback w with
    | (w', Resolved a) =>
        match commit_fault with
        | None => (w', Resolved a)
        | Some e =>
            (mkWorld (db w) (data w') (newPhaseProduct w') (trace w'),
             Rejected e)
        end
    | (w', Rejected e) =>
        (mkWorld (db w) (data w') (newPhaseProduct w') (trace w'), Rejected e)
    end.

Definition workflow (env : Env) (faults : Faults)
    (projectId workStreamId phaseId : Z) : Promise unit :=
  existing <~ attempt (linkage_lookup faults)
                (ProjectPhase_findOne env (linkage_where projectId phaseId)
                   (include_where projectId workStreamId)) ;;
  existingProject <~
    match existing with
    | None => throw (linkageNotFound projectId workStreamId phaseId)
    | Some _ =>
        attempt (project_lookup faults)
          (Project_findOne env (project_where projectId))
    end ;;
  productCount <~
    match existingProject with
    | None => throw (projectNotFound projectId)
    | Some project =>
        d <~ get_data ;;
        set_data (assign d
          [("phaseId", VNum phaseId);
           ("projectId", VNum projectId);
           ("directProjectId", field project "directProjectId");
           ("billingAccountId", field project "billingAccountId")]) ;;
        attempt (product_count faults)
          (PhaseProduct_count env (count_where projectId phaseId))
    end ;;
  if productCount >=? maxPhaseProductCount env
  then throw (quotaExceeded env)
  else
    d <~ get_data ;;
    _newPhaseProduct <~ attempt (product_insert faults)
                          (PhaseProduct_create d) ;;
    set_newPhaseProduct (Some (cloneDeep _newPhaseProduct)) ;;
    p <~ the_newPhaseProduct ;;
    call (LogDebug "new work created (id# %d, name: %s)"
            [field p "id"; field p "name"]) ;;
    set_newPhaseProduct (Some (get_plain p)) ;;
    p <~ the_newPhaseProduct ;;
    set_newPhaseProduct (Some (omit p ["deletedAt"; "utm"])).

Definition createWorkItem (env : Env) (faults : Faults)
    (projectId workStreamId phaseId : Z) : Promise unit :=
  transaction (commit faults)
    (workflow env faults projectId workStreamId phaseId).

Definition handler_chain (env : Env) (faults : Faults) (req : Request)
  : Promise unit :=
  let projectId := parseInt (params_projectId req) in
  let workStreamId := parseInt (params_workStreamId req) in
  let phaseId := parseInt (params_workId req) in
  d <~ get_data ;;
  set_data (assign d
    [("projectId", VNum projectId);
     ("phaseId", VNum phaseId);
     ("createdBy", authUser_userId req);
     ("updatedBy", authUser_userId req)]) ;;
  set_newPhaseProduct None ;;
  catch (createWorkItem env faults projectId workStreamId phaseId ;;
         sendEventsAndRespond env req)
        (fun err => call (Next err)).

Definition handler (env : Env) (faults : Faults) (req : Request)
    (store : Store) : World :=
  (handler_chain env faults req (arrival req store)).1.


Definition run_createWorkItem (env : Env) (faults : Faults) (req : Request)
    (store : Store) : World * Settled unit :=
  createWorkItem env faults (projectId_of req) (workStreamId_of req)
    (phaseId_of req) (entry req store).





End Fallible.

(** ** Texts that do not occur in a message *)



(** ** The models, from the specification *)

Module SpecModelled.

(** Modelled from the spec: the model declarations are not among the
    sources; the glossary has every query exclude soft-deleted rows unless
    they are explicitly included, which is the [paranoid] option of the
    ORM, set on each model. *)
Definition paranoid : bool := true.

Definition env (limit : Z) (key : string)
    (publish : string -> obj -> string -> CallOutcome)
    (emit : string -> Request -> obj -> CallOutcome) : Env :=
  mkEnv limit key paranoid paranoid paranoid paranoid publish emit.

(** The scenario's environment with these models. *)
Definition scenario_env : Env :=
  env 2 "PROJECT_PHASE_PRODUCT_ADDED"
    (fun _ _ _ => Returns None) (fun _ _ _ => Returns None).

(** A live phase with the requested id under another project. *)
Definition phase100_elsewhere : obj :=
  Scenario.row [("id", VNum 100); ("projectId", VNum 2); ("deletedAt", VNull)].

(** Stores in which the only matching phase, or the only matching work
    stream, is soft-deleted, beside live rows that do not match. *)
Definition store_deleted_phase : Store :=
  Scenario.store_with [Scenario.project1]
    [phase100_elsewhere; Scenario.phase100_deleted]
    [Scenario.workStream10] [].

Definition store_deleted_workStream : Store :=
  Scenario.store_with [Scenario.project1]
    [phase100_elsewhere; Scenario.phase100]
    [Scenario.workStream10_elsewhere; Scenario.workStream10_deleted] [].

End SpecModelled.

(** ** How a run unfolds *)

(** Runs the promise combinators and the accessors of the world, and
    leaves the queries, the objects and the collaborators folded. *)
Ltac run_chain :=
  cbv beta iota zeta delta
    [run_createWorkItem createWorkItem workflow sendEventsAndRespond
     handler_chain
     handler arrival entry transaction then_ catch resolve throw outcome
     ProjectPhase_findOne Project_findOne PhaseProduct_count
     PhaseProduct_create the_newPhaseProduct current_req
     get_db set_db get_data set_data get_newPhaseProduct set_newPhaseProduct
     call db data newPhaseProduct trace fst snd cloneDeep get_plain].

Section Runs.
Variables (env : Env) (req : Request) (store : Store).

Lemma run_linkage_missing :
  existingLinkage env store (projectId_of req) (workStreamId_of req)
    (phaseId_of req) = None ->
  run_createWorkItem env req store =
    (entry req store,
     Rejected (linkageNotFound (projectId_of req) (workStreamId_of req)
                 (phaseId_of req))).
Proof.
  intros H. unfold existingLinkage in H.
  run_chain. rewrite H. reflexivity.
Qed.

Lemma run_project_missing existing :
  existingLinkage env store (projectId_of req) (workStreamId_of req)
    (phaseId_of req) = Some existing ->
  existingProject env store (projectId_of req) = None ->
  run_createWorkItem env req store =
    (entry req store, Rejected (projectNotFound (projectId_of req))).
Proof.
  intros H1 H2. unfold existingLinkage in H1. unfold existingProject in H2.
  run_chain. rewrite H1. run_chain. rewrite H2. reflexivity.
Qed.

Lemma run_quota_exceeded existing project :
  existingLinkage env store (projectId_of req) (workStreamId_of req)
    (phaseId_of req) = Some existing ->
  existingProject env store (projectId_of req) = Some project ->
  maxPhaseProductCount env
    <= productCount env store (projectId_of req) (phaseId_of req) ->
  run_createWorkItem env req store =
    (mkWorld store (enriched req project) None [],
     Rejected (quotaExceeded env)).
Proof.
  intros H1 H2 H3. unfold existingLinkage in H1. unfold existingProject in H2.
  unfold productCount in H3.
  run_chain. rewrite H1. run_chain. rewrite H2. run_chain.
  destruct (Z.geb_spec
    (count (paranoid_PhaseProduct env) (PhaseProduct store)
       (count_where (projectId_of req) (phaseId_of req)))
    (maxPhaseProductCount env)) as [_|Hlt]; [reflexivity | lia].
Qed.

Lemma run_committed existing project :
  existingLinkage env store (projectId_of req) (workStreamId_of req)
    (phaseId_of req) = Some existing ->
  existingProject env store (projectId_of req) = Some project ->
  productCount env store (projectId_of req) (phaseId_of req)
    < maxPhaseProductCount env ->
  run_createWorkItem env req store =
    (mkWorld (create store (enriched req project)).2
             (enriched req project)
             (Some (sanitized req store project))
             [LogDebug "new work created (id# %d, name: %s)"
                [field (created_row req store project) "id";
                 field (created_row req store project) "name"]],
     Resolved tt).
Proof.
  intros H1 H2 H3. unfold existingLinkage in H1. unfold existingProject in H2.
  unfold productCount in H3.
  run_chain. rewrite H1. run_chain. rewrite H2. run_chain.
  destruct (Z.geb_spec
    (count (paranoid_PhaseProduct env) (PhaseProduct store)
       (count_where (projectId_of req) (phaseId_of req)))
    (maxPhaseProductCount env)) as [Hge|_]; [lia | reflexivity].
Qed.

(** The handler is the transactional part followed, when it commits, by
    the publishing part; whatever either rejects with goes to [next]. *)
Lemma handler_unfold :
  handler env req store =
    match run_createWorkItem env req store with
    | (w, Rejected e) =>
        mkWorld (db w) (data w) (newPhaseProduct w) (trace w ++ [Next e])
    | (w, Resolved _) =>
        (catch (sendEventsAndRespond env req)
               (fun err => call (Next err)) w).1
    end.
Proof.
  unfold handler, handler_chain, arrival.
  cbv beta iota zeta delta
    [then_ catch get_data set_data set_newPhaseProduct call
     db data newPhaseProduct trace].
  change (createWorkItem env _ _ _ _) with (run_createWorkItem env req store).
  destruct (run_createWorkItem env req store) as [w [[]|e]]; reflexivity.
Qed.

Lemma handler_rejected w e :
  run_createWorkItem env req store = (w, Rejected e) ->
  handler env req store =
    mkWorld (db w) (data w) (newPhaseProduct w) (trace w ++ [Next e]).
Proof. intros H. rewrite handler_unfold, H. reflexivity. Qed.

(** The calls made once the transaction has committed. *)
Lemma handler_committed existing project :
  existingLinkage env store (projectId_of req) (workStreamId_of req)
    (phaseId_of req) = Some existing ->
  existingProject env store (projectId_of req) = Some project ->
  productCount env store (projectId_of req) (phaseId_of req)
    < maxPhaseProductCount env ->
  let created := sanitized req store project in
  handler env req store =
    mkWorld (create store (enriched req project)).2
      (enriched req project) (Some created)
      ([LogDebug "new work created (id# %d, name: %s)"
          [field (created_row req store project) "id";
           field (created_row req store project) "name"];
        LogDebug "Sending event to RabbitMQ bus for phase product %d"
          [field created "id"];
        Publish (KEY env) created (req_id req)]
       ++ match pubsub_publish env (KEY env) created (req_id req) with
          | Throws e => [Next e]
          | Returns _ =>
              [LogDebug "Sending event to Kafka bus for phase product %d"
                 [field created "id"];
               Emit (KEY env) (req_enriched req project) created]
              ++ match app_emit env (KEY env) (req_enriched req project)
                         created with
                 | Throws e => [Next e]
                 | Returns _ =>
                     [Respond 201 (wrapResponse (req_id req) created 1 201)]
                 end
          end).
Proof.
  intros H1 H2 H3 created.
  rewrite handler_unfold, (run_committed existing project H1 H2 H3).
  fold created. unfold req_enriched. run_chain.
  destruct (pubsub_publish env (KEY env) created (req_id req));
    run_chain; [|reflexivity].
  destruct (app_emit env _ _ _); run_chain; reflexivity.
Qed.

End Runs.

(** ** The queries against the store *)

Lemma matches_app (w1 w2 : list (string * value)) (row : gmap string value) :
  matches (w1 ++ w2) row = matches w1 row && matches w2 row.
Proof. unfold matches. apply forallb_app. Qed.

Lemma matches_scoped (b : bool) (w : list (string * value))
    (row : gmap string value) :
  matches (scoped b w) row = true -> matches w row = true.
Proof.
  destruct b; unfold scoped; [|done].
  rewrite matches_app. intros H. apply andb_true_iff in H. tauto.
Qed.

Lemma matches_two k1 v1 k2 v2 (row : gmap string value) :
  matches [(k1, v1); (k2, v2)] row = true <->
  field row k1 = v1 /\ field row k2 = v2.
Proof.
  unfold matches. cbn [forallb fst snd].
  rewrite andb_true_r, andb_true_iff, !bool_decide_eq_true. tauto.
Qed.

Lemma matches_three k1 v1 k2 v2 k3 v3 (row : gmap string value) :
  matches [(k1, v1); (k2, v2); (k3, v3)] row = true <->
  field row k1 = v1 /\ field row k2 = v2 /\ field row k3 = v3.
Proof.
  unfold matches. cbn [forallb fst snd].
  rewrite andb_true_r, !andb_true_iff, !bool_decide_eq_true. tauto.
Qed.

(** A where clause that already asks for an unset soft-delete marker
    selects the same rows whether or not the model is paranoid. *)
Lemma matches_scoped_deletedAt (b : bool) (w : list (string * value))
    (row : gmap string value) :
  In ("deletedAt", VNull) w ->
  matches (scoped b w) row = matches w row.
Proof.
  intros Hin. destruct b; unfold scoped; [|done].
  rewrite matches_app. destruct (matches w row) eqn:E; [|done].
  unfold matches in *. cbn [forallb fst snd]. rewrite andb_true_r.
  rewrite forallb_forall in E. apply (E _ Hin).
Qed.

Lemma associated_spec (store : Store) (phase ws : gmap string value) p w :
  field phase "id" = VNum p -> field ws "id" = VNum w ->
  associated store phase ws = true <-> In (p, w) (phase_work_streams store).
Proof.
  intros Hp Hw. unfold associated. rewrite existsb_exists. split.
  - intros [[a b] [Hin H]]. apply andb_true_iff in H as [Ha Hb].
    apply bool_decide_eq_true in Ha, Hb. cbn [fst snd] in *.
    rewrite Hp in Ha. rewrite Hw in Hb. congruence.
  - intros Hin. exists (p, w). split; [done|].
    cbn [fst snd]. rewrite Hp, Hw, !bool_decide_eq_true_2; done.
Qed.

(** Step 1 finds a record only where the store holds the linkage. *)
Lemma existingLinkage_Linked env store projectId workStreamId phaseId existing :
  existingLinkage env store projectId workStreamId phaseId = Some existing ->
  Linked store projectId workStreamId phaseId.
Proof.
  unfold existingLinkage, findOne_include. intros H.
  apply find_some in H as [Hin H].
  apply andb_true_iff in H as [Hp Hex].
  apply matches_scoped, matches_two in Hp as [Hid Hpr].
  apply existsb_exists in Hex as [ws [Hws H]].
  apply andb_true_iff in H as [Hw Hassoc].
  apply matches_scoped, matches_two in Hw as [Hwid Hwpr].
  exists existing, ws. repeat split; try done.
  by apply (associated_spec store existing ws).
Qed.

Lemma existingLinkage_not_Linked env store projectId workStreamId phaseId :
  ~ Linked store projectId workStreamId phaseId ->
  existingLinkage env store projectId workStreamId phaseId = None.
Proof.
  intros Hn.
  destruct (existingLinkage env store projectId workStreamId phaseId) eqn:E;
    [|done].
  exfalso. eauto using existingLinkage_Linked.
Qed.

(** Step 2 finds exactly the live project rows. *)
Lemma existingProject_Live env store projectId project :
  existingProject env store projectId = Some project ->
  LiveProject store projectId project.
Proof.
  unfold existingProject, findOne. intros H.
  apply find_some in H as [Hin H].
  apply matches_scoped, matches_two in H. by split.
Qed.

Lemma existingProject_none env store projectId :
  (forall project, ~ LiveProject store projectId project) ->
  existingProject env store projectId = None.
Proof.
  intros Hn.
  destruct (existingProject env store projectId) as [found|] eqn:E; [|done].
  exfalso. apply (Hn found). by apply (existingProject_Live env).
Qed.

Lemma existingProject_some env store projectId project :
  LiveProject store projectId project ->
  exists found, existingProject env store projectId = Some found.
Proof.
  intros (Hin & Hid & Hdel).
  destruct (existingProject env store projectId) eqn:E; [eauto|].
  exfalso. unfold existingProject, findOne in E.
  apply (find_none _ _ E) in Hin.
  rewrite matches_scoped_deletedAt in Hin by (cbn; tauto).
  assert (matches (project_where projectId) project = true) as H
    by (by apply matches_two).
  congruence.
Qed.

(** Step 4 counts exactly the rows of the pair that are not soft-deleted. *)
Lemma count_nonDeleted b (rows : list (gmap string value)) projectId phaseId :
  length (List.filter (matches (scoped b (count_where projectId phaseId))) rows)
  = length (filter
      (fun row : gmap string value =>
         field row "projectId" = VNum projectId /\
         field row "phaseId" = VNum phaseId /\
         field row "deletedAt" = VNull) rows).
Proof.
  induction rows as [|row rows IH]; [done|].
  cbn [List.filter]. rewrite filter_cons.
  rewrite matches_scoped_deletedAt by (cbn; tauto).
  destruct (matches (count_where projectId phaseId) row) eqn:E.
  - apply matches_three in E. rewrite decide_True by done.
    cbn [length]. by rewrite IH.
  - rewrite decide_False; [done|].
    intros H. apply matches_three in H. unfold count_where in E. congruence.
Qed.

Lemma productCount_nonDeleted env store projectId phaseId :
  productCount env store projectId phaseId
  = nonDeletedCount store projectId phaseId.
Proof.
  unfold productCount, count, nonDeletedCount. by rewrite count_nonDeleted.
Qed.

(** ** The persisted row and its published copy *)

Ltac open_objects :=
  unfold sanitized, created_row, persisted, enriched, defaulted, omit, assign;
  cbn [fold_left fst snd].

Lemma created_row_projectId req store project :
  created_row req store project !! "projectId" = Some (VNum (projectId_of req)).
Proof. open_objects. by simplify_map_eq. Qed.

Lemma created_row_phaseId req store project :
  created_row req store project !! "phaseId" = Some (VNum (phaseId_of req)).
Proof. open_objects. by simplify_map_eq. Qed.

Lemma created_row_directProjectId req store project :
  created_row req store project !! "directProjectId"
  = Some (field project "directProjectId").
Proof. open_objects. by simplify_map_eq. Qed.

Lemma created_row_billingAccountId req store project :
  created_row req store project !! "billingAccountId"
  = Some (field project "billingAccountId").
Proof. open_objects. by simplify_map_eq. Qed.

Lemma created_row_deletedAt req store project :
  created_row req store project !! "deletedAt" = Some VNull.
Proof. open_objects. by simplify_map_eq. Qed.

Lemma created_row_createdBy req store project :
  created_row req store project !! "createdBy" = Some (authUser_userId req).
Proof. open_objects. by simplify_map_eq. Qed.

Lemma created_row_updatedBy req store project :
  created_row req store project !! "updatedBy" = Some (authUser_userId req).
Proof. open_objects. by simplify_map_eq. Qed.

Lemma sanitized_deletedAt req store project :
  sanitized req store project !! "deletedAt" = None.
Proof. open_objects. by simplify_map_eq. Qed.

Lemma sanitized_utm req store project :
  sanitized req store project !! "utm" = None.
Proof. open_objects. by simplify_map_eq. Qed.

Lemma sanitized_other req store project k :
  k <> "deletedAt" -> k <> "utm" ->
  sanitized req store project !! k = created_row req store project !! k.
Proof.
  intros H1 H2. unfold sanitized, omit. cbn [fold_left].
  by rewrite !lookup_delete_ne.
Qed.

(** The insert appends one row and touches no other table. *)
Lemma create_PhaseProduct store o :
  PhaseProduct (create store o).2
  = (PhaseProduct store ++ [persisted store o])%list.
Proof. reflexivity. Qed.

Lemma nonDeletedCount_create req store project :
  nonDeletedCount (create store (enriched req project)).2
    (projectId_of req) (phaseId_of req)
  = nonDeletedCount store (projectId_of req) (phaseId_of req) + 1.
Proof.
  unfold nonDeletedCount. rewrite create_PhaseProduct, filter_app.
  rewrite filter_cons, filter_nil, decide_True.
  - rewrite length_app. cbn [length]. lia.
  - fold (created_row req store project). unfold field.
    by rewrite created_row_projectId, created_row_phaseId,
      created_row_deletedAt.
Qed.

(** ** Texts inside the messages *)

Lemma mentions_here before text after :
  mentions (before +:+ text +:+ after) text.
Proof. by exists before, after. Qed.

Lemma append_associative (a b c : string) :
  (a +:+ b) +:+ c = a +:+ b +:+ c.
Proof.
  induction a as [|x a IH]; [done|].
  change (String x ((a +:+ b) +:+ c) = String x (a +:+ b +:+ c)).
  by rewrite IH.
Qed.

Lemma mentions_after before m text :
  mentions m text -> mentions (before +:+ m) text.
Proof.
  intros (b & a & ->). exists (before +:+ b), a.
  by rewrite append_associative.
Qed.

Lemma mentions_end before text : mentions (before +:+ text) text.
Proof.
  exists before, "". f_equal.
  induction text as [|c text IH]; [done|].
  change (String c text = String c (text +:+ "")). by rewrite <- IH.
Qed.

(** ** The four ways a run can go *)

Lemma run_cases env req store :
  let projectId := projectId_of req in
  let workStreamId := workStreamId_of req in
  let phaseId := phaseId_of req in
  (existingLinkage env store projectId workStreamId phaseId = None /\
   run_createWorkItem env req store =
     (entry req store,
      Rejected (linkageNotFound projectId workStreamId phaseId)))
  \/ (exists existing,
        existingLinkage env store projectId workStreamId phaseId
          = Some existing /\
        existingProject env store projectId = None /\
        run_createWorkItem env req store =
          (entry req store, Rejected (projectNotFound projectId)))
  \/ (exists existing project,
        existingLinkage env store projectId workStreamId phaseId
          = Some existing /\
        existingProject env store projectId = Some project /\
        maxPhaseProductCount env
          <= productCount env store projectId phaseId /\
        run_createWorkItem env req store =
          (mkWorld store (enriched req project) None [],
           Rejected (quotaExceeded env)))
  \/ (exists existing project,
        existingLinkage env store projectId workStreamId phaseId
          = Some existing /\
        existingProject env store projectId = Some project /\
        productCount env store projectId phaseId
          < maxPhaseProductCount env /\
        run_createWorkItem env req store =
          (mkWorld (create store (enriched req project)).2
             (enriched req project) (Some (sanitized req store project))
             [LogDebug "new work created (id# %d, name: %s)"
                [field (created_row req store project) "id";
                 field (created_row req store project) "name"]],
           Resolved tt)).
Proof.
  intros projectId workStreamId phaseId.
  destruct (existingLinkage env store projectId workStreamId phaseId)
    as [existing|] eqn:H1.
  2: { left. split; [done|]. by apply run_linkage_missing. }
  destruct (existingProject env store projectId) as [project|] eqn:H2.
  2: { right; left. exists existing. repeat split; try done.
       by apply (run_project_missing env req store existing). }
  destruct (Z_lt_le_dec (productCount env store projectId phaseId)
              (maxPhaseProductCount env)) as [H3|H3].
  - do 3 right. exists existing, project. repeat split; try done.
    by apply (run_committed env req store existing project).
  - right; right; left. exists existing, project. repeat split; try done.
    by apply (run_quota_exceeded env req store existing project).
Qed.

(** The callback rejects before it writes: at the point of rejection the
    database is what it was, rollback or no rollback. *)
Lemma workflow_rejects_before_writing env projectId workStreamId phaseId
    w w' e :
  workflow env projectId workStreamId phaseId w = (w', Rejected e) ->
  db w' = db w.
Proof.
  run_chain.
  destruct (findOne_include _ _ _ _ _); run_chain; [|by intros; simplify_eq].
  destruct (findOne _ _ _); run_chain; [|by intros; simplify_eq].
  destruct (_ >=? _); run_chain; by intros; simplify_eq.
Qed.

(** A run that rejects has written nothing and called nobody. *)
Lemma run_rejected env req store w e :
  run_createWorkItem env req store = (w, Rejected e) ->
  db w = store /\ newPhaseProduct w = None /\ trace w = [].
Proof.
  intros H.
  destruct (run_cases env req store)
    as [[_ R]|[(? & _ & _ & R)|[(? & ? & _ & _ & _ & R)|(? & ? & _ & _ & _ & R)]]];
    rewrite R in H; by simplify_eq.
Qed.

Lemma handler_of_rejected env req store w e :
  run_createWorkItem env req store = (w, Rejected e) ->
  handler env req store = mkWorld store (data w) None [Next e].
Proof.
  intros H. rewrite (handler_rejected env req store w e H).
  destruct (run_rejected env req store w e H) as (-> & -> & ->). done.
Qed.

(** ** The scenarios of the specification, run *)

(** No product yet: 201, one row with the project's ids, one publish and
    one emit. *)
Example scenario_created :
  let final := handler Scenario.env Scenario.req Scenario.store0 in
  let created := sanitized Scenario.req Scenario.store0 Scenario.project1 in
  PhaseProduct (db final)
    = [created_row Scenario.req Scenario.store0 Scenario.project1] /\
  map is_publish (trace final) = [false; false; true; false; false; false] /\
  map is_emit (trace final) = [false; false; false; false; true; false] /\
  last (trace final)
    = Some (Respond 201 (wrapResponse "req-1" created 1 201)) /\
  created !! "projectId" = Some (VNum 1) /\
  created !! "phaseId" = Some (VNum 100) /\
  created !! "directProjectId" = Some (VNum 7) /\
  created !! "billingAccountId" = Some (VNum 9) /\
  created !! "id" = Some (VNum 500).
Proof. vm_compute. repeat split. Qed.

(** Two live products and a limit of two: 400, no new row, no publish. *)
Example scenario_limit_hit :
  let final := handler Scenario.env Scenario.req Scenario.store2 in
  db final = Scenario.store2 /\
  trace final
    = [Next (mkError "the number of products per phase cannot exceed 2"
               (Some 400))].
Proof. vm_compute. repeat split. Qed.

(** The work stream belongs to another project: 404, no row, no publish. *)
Example scenario_bad_linkage :
  let final := handler Scenario.env Scenario.req Scenario.store_bad_linkage in
  db final = Scenario.store_bad_linkage /\
  trace final
    = [Next (mkError ("project work stream not found for project id 1"
                      +:+ " and work stream 10 and phase id 100")
               (Some 404))].
Proof. vm_compute. repeat split. Qed.

(** ** The properties of the specification *)

(** C1 (quota enforcement boundary).  With the linkage found and a live
    project, and [N = maxPhaseProductCount]: if exactly [N] PhaseProduct
    rows of the pair are not soft-deleted, the call is rejected with the
    status-400 error whose message names [N], and the store is left as it
    was; if exactly [N - 1] are, the call commits and the number of rows of
    the pair that are not soft-deleted becomes [N]. *)
Theorem C1_quota_boundary env req store existing project :
  let projectId := projectId_of req in
  let phaseId := phaseId_of req in
  let N := maxPhaseProductCount env in
  existingLinkage env store projectId (workStreamId_of req) phaseId
    = Some existing ->
  LiveProject store projectId project ->
  (nonDeletedCount store projectId phaseId = N ->
   exists w,
     run_createWorkItem env req store = (w, Rejected (quotaExceeded env)) /\
     status (quotaExceeded env) = Some 400 /\
     message (quotaExceeded env)
       = "the number of products per phase cannot exceed " +:+ pretty N /\
     mentions (message (quotaExceeded env)) (pretty N) /\
     db w = store /\
     db (handler env req store) = store /\
     trace (handler env req store) = [Next (quotaExceeded env)])
  /\
  (nonDeletedCount store projectId phaseId = N - 1 ->
   exists w,
     run_createWorkItem env req store = (w, Resolved tt) /\
     length (PhaseProduct (db w)) = S (length (PhaseProduct store)) /\
     nonDeletedCount (db w) projectId phaseId = N /\
     nonDeletedCount (db (handler env req store)) projectId phaseId = N).
Proof.
  intros projectId phaseId N H1 Hlive.
  destruct (existingProject_some env store projectId project Hlive)
    as [found H2].
  split; intros Hcount.
  - assert (N <= productCount env store projectId phaseId) as H3
      by (rewrite productCount_nonDeleted; lia).
    pose proof (run_quota_exceeded env req store existing found H1 H2 H3) as R.
    eexists. split; [exact R|].
    rewrite (handler_of_rejected env req store _ _ R).
    repeat split. apply mentions_end.
  - assert (productCount env store projectId phaseId < N) as H3
      by (rewrite productCount_nonDeleted; lia).
    pose proof (run_committed env req store existing found H1 H2 H3) as R.
    eexists. split; [exact R|].
    rewrite (handler_committed env req store existing found H1 H2 H3).
    cbn [db]. rewrite create_PhaseProduct, length_app.
    rewrite nonDeletedCount_create. fold projectId phaseId.
    repeat split; cbn [length]; lia.
Qed.

Lemma C1_quota_boundary_witness :
  db (handler Scenario.env Scenario.req Scenario.store2) = Scenario.store2 /\
  nonDeletedCount (db (handler Scenario.env Scenario.req Scenario.store1))
    1 100 = 2.
Proof.
  split.
  - destruct (C1_quota_boundary Scenario.env Scenario.req Scenario.store2
                Scenario.phase100 Scenario.project1) as [H _].
    + vm_compute; reflexivity.
    + repeat split; [left|..]; vm_compute; reflexivity.
    + destruct H as (w & _ & _ & _ & _ & _ & H & _);
        [vm_compute; reflexivity | exact H].
  - destruct (C1_quota_boundary Scenario.env Scenario.req Scenario.store1
                Scenario.phase100 Scenario.project1) as [_ H].
    + vm_compute; reflexivity.
    + repeat split; [left|..]; vm_compute; reflexivity.
    + destruct H as (w & _ & _ & _ & H);
        [vm_compute; reflexivity | exact H].
Defined.

(** *** Runs in which the store fails *)


(** With no fault the fallible handler is the handler. *)
Lemma fallible_none env req store :
  Fallible.handler env Fallible.none req store = handler env req store /\
  Fallible.run_createWorkItem env Fallible.none req store
  = run_createWorkItem env req store.
Proof. split; reflexivity. Qed.








(** C4 (linkage integrity).  Whenever the store holds no Phase row with
    the phase id and project id that is joined to a WorkStream row with the
    work-stream id and the same project id, the call is rejected with the
    status-404 error whose message contains the three ids, and the
    PhaseProduct table is left as it was. *)
Theorem C4_linkage_integrity env req store :
  let projectId := projectId_of req in
  let workStreamId := workStreamId_of req in
  let phaseId := phaseId_of req in
  let err := linkageNotFound projectId workStreamId phaseId in
  ~ Linked store projectId workStreamId phaseId ->
  run_createWorkItem env req store = (entry req store, Rejected err) /\
  status err = Some 404 /\
  mentions (message err) (pretty projectId) /\
  mentions (message err) (pretty workStreamId) /\
  mentions (message err) (pretty phaseId) /\
  trace (handler env req store) = [Next err] /\
  db (handler env req store) = store /\
  PhaseProduct (db (handler env req store)) = PhaseProduct store.
Proof.
  intros projectId workStreamId phaseId err Hn.
  pose proof (existingLinkage_not_Linked env store _ _ _ Hn) as H1.
  pose proof (run_linkage_missing env req store H1) as R.
  rewrite (handler_of_rejected env req store _ _ R).
  split; [exact R|]. split; [done|]. repeat split.
  - apply mentions_here.
  - do 2 apply mentions_after. apply mentions_here.
  - do 4 apply mentions_after. apply mentions_end.
Qed.

Lemma C4_linkage_integrity_witness :
  ~ Linked Scenario.store_bad_linkage 1 10 100 /\
  trace (handler Scenario.env Scenario.req Scenario.store_bad_linkage)
    = [Next (linkageNotFound 1 10 100)].
Proof.
  assert (~ Linked Scenario.store_bad_linkage 1 10 100) as Hn.
  { intros (phase & ws & _ & [<-|[]] & _ & _ & _ & Hproject & _).
    vm_compute in Hproject. discriminate Hproject. }
  split; [exact Hn|].
  exact (proj1 (proj2 (proj2 (proj2 (proj2 (proj2
    (C4_linkage_integrity Scenario.env Scenario.req
       Scenario.store_bad_linkage Hn))))))).
Defined.

(** C5 (soft-delete exclusion of the project).  Whenever the linkage is
    found but every Project row with the project id carries a soft-delete
    marker (or there is no such row), the call is rejected with the
    status-404 error that names the project id, and nothing is inserted. *)
Theorem C5_project_soft_delete env req store existing :
  let projectId := projectId_of req in
  let err := projectNotFound projectId in
  existingLinkage env store projectId (workStreamId_of req) (phaseId_of req)
    = Some existing ->
  (forall project, In project (Project store) ->
     field project "id" = VNum projectId ->
     field project "deletedAt" <> VNull) ->
  run_createWorkItem env req store = (entry req store, Rejected err) /\
  status err = Some 404 /\
  message err = "project not found for project id " +:+ pretty projectId /\
  mentions (message err) (pretty projectId) /\
  trace (handler env req store) = [Next err] /\
  db (handler env req store) = store /\
  PhaseProduct (db (handler env req store)) = PhaseProduct store.
Proof.
  intros projectId err H1 Hdel.
  assert (existingProject env store projectId = None) as H2.
  { apply existingProject_none. intros project (Hin & Hid & Hd).
    by apply (Hdel project). }
  pose proof (run_project_missing env req store existing H1 H2) as R.
  rewrite (handler_of_rejected env req store _ _ R).
  split; [exact R|]. repeat split. apply mentions_end.
Qed.

Lemma C5_project_soft_delete_witness :
  trace (handler Scenario.env Scenario.req Scenario.store_deleted_project)
    = [Next (projectNotFound 1)].
Proof.
  refine (proj1 (proj2 (proj2 (proj2 (proj2
    (C5_project_soft_delete Scenario.env Scenario.req
       Scenario.store_deleted_project Scenario.phase100 _ _)))))).
  - vm_compute; reflexivity.
  - intros project [<-|[]] _. vm_compute. discriminate.
Defined.

(** C6 (authoritative enrichment).  Whenever the call commits, exactly one
    row has been appended to the PhaseProduct table, and in that row
    [directProjectId] and [billingAccountId] are those of the project row
    that step 2 resolved, whatever the payload held under these two names,
    and [projectId] and [phaseId] are those of the path. *)
Theorem C6_authoritative_enrichment env req store w :
  run_createWorkItem env req store = (w, Resolved tt) ->
  exists project row,
    existingProject env store (projectId_of req) = Some project /\
    LiveProject store (projectId_of req) project /\
    PhaseProduct (db w) = (PhaseProduct store ++ [row])%list /\
    PhaseProduct (db (handler env req store))
      = (PhaseProduct store ++ [row])%list /\
    row !! "directProjectId" = Some (field project "directProjectId") /\
    row !! "billingAccountId" = Some (field project "billingAccountId") /\
    row !! "projectId" = Some (VNum (projectId_of req)) /\
    row !! "phaseId" = Some (VNum (phaseId_of req)).
Proof.
  intros H.
  destruct (run_cases env req store)
    as [[_ R]|[(? & _ & _ & R)|[(? & ? & _ & _ & _ & R)
       |(existing & project & H1 & H2 & H3 & R)]]];
    rewrite R in H; simplify_eq.
  exists project, (created_row req store project).
  rewrite (handler_committed env req store existing project H1 H2 H3).
  cbn [db]. rewrite create_PhaseProduct.
  split; [done|]. split; [by apply (existingProject_Live env)|].
  split; [done|]. split; [done|].
  auto using created_row_directProjectId, created_row_billingAccountId,
    created_row_projectId, created_row_phaseId.
Qed.

Lemma C6_authoritative_enrichment_witness :
  Scenario.payload !! "directProjectId" = Some (VNum 3) /\
  Scenario.payload !! "billingAccountId" = Some (VNum 4) /\
  exists row,
    PhaseProduct (db (handler Scenario.env Scenario.req Scenario.store0))
      = [row] /\
    row !! "directProjectId" = Some (VNum 7) /\
    row !! "billingAccountId" = Some (VNum 9).
Proof.
  split; [vm_compute; reflexivity|]. split; [vm_compute; reflexivity|].
  destruct (C6_authoritative_enrichment Scenario.env Scenario.req
              Scenario.store0
              (run_createWorkItem Scenario.env Scenario.req Scenario.store0).1)
    as (project & row & H2 & _ & _ & Hrows & Hd & Hb & _).
  - vm_compute; reflexivity.
  - exists row. split; [exact Hrows|].
    assert (existingProject Scenario.env Scenario.store0
              (projectId_of Scenario.req) = Some Scenario.project1) as E
      by (vm_compute; reflexivity).
    rewrite E in H2. injection H2 as <-.
    split; [exact Hd | exact Hb].
Defined.

(** ** After the commit *)

Lemma created_row_utm req store project :
  created_row req store project !! "utm" = body_param req !! "utm".
Proof. open_objects. by simplify_map_eq. Qed.

(** A run of the handler either forwards the rejection of the
    transactional part, or commits and goes on to publish. *)
Lemma handler_outcomes env req store :
  (exists w e,
     run_createWorkItem env req store = (w, Rejected e) /\
     handler env req store = mkWorld store (data w) None [Next e])
  \/
  (exists existing project,
     existingLinkage env store (projectId_of req) (workStreamId_of req)
       (phaseId_of req) = Some existing /\
     existingProject env store (projectId_of req) = Some project /\
     productCount env store (projectId_of req) (phaseId_of req)
       < maxPhaseProductCount env).
Proof.
  destruct (run_cases env req store)
    as [[_ R]|[(? & _ & _ & R)|[(? & ? & _ & _ & _ & R)
       |(existing & project & H1 & H2 & H3 & R)]]].
  1-3: left; do 2 eexists; split; [exact R|];
       by rewrite (handler_of_rejected env req store _ _ R).
  right. by exists existing, project.
Qed.

Ltac committed_trace env req store existing project H1 H2 H3 :=
  rewrite (handler_committed env req store existing project H1 H2 H3) in *;
  cbn [trace db] in *;
  destruct (pubsub_publish env (KEY env) (sanitized req store project)
              (req_id req)) as [?|?] eqn:?;
  [destruct (app_emit env (KEY env) (req_enriched req project)
               (sanitized req store project)) as [?|?] eqn:?|];
  cbn [app In List.filter is_publish is_emit is_respond is_next entity_of
       env_content length times] in *.

(** C7 (sanitization).  In every run, the entity carried by a publish, an
    emit or a response has neither [deletedAt] nor [utm]; it is the row
    that was just persisted with these two properties removed, and that row
    does carry [deletedAt] (unset), and [utm] whenever the payload did. *)
Theorem C7_sanitization env req store call entity :
  In call (trace (handler env req store)) ->
  entity_of call = Some entity ->
  entity !! "deletedAt" = None /\
  entity !! "utm" = None /\
  exists row,
    last (PhaseProduct (db (handler env req store))) = Some row /\
    row !! "deletedAt" = Some VNull /\
    row !! "utm" = body_param req !! "utm" /\
    entity = omit row ["deletedAt"; "utm"] /\
    forall k, k <> "deletedAt" -> k <> "utm" -> entity !! k = row !! k.
Proof.
  intros Hin Hent.
  destruct (handler_outcomes env req store)
    as [(w & e & _ & Hh)|(existing & project & H1 & H2 & H3)].
  { rewrite Hh in Hin. cbn [trace In] in Hin.
    destruct Hin as [<-|[]]. discriminate Hent. }
  assert (entity = sanitized req store project) as ->.
  { committed_trace env req store existing project H1 H2 H3;
      repeat (destruct Hin as [<-|Hin];
              [cbn [entity_of env_content] in Hent; by simplify_eq|]);
      done. }
  split; [apply sanitized_deletedAt|]. split; [apply sanitized_utm|].
  exists (created_row req store project).
  rewrite (handler_committed env req store existing project H1 H2 H3).
  cbn [db]. rewrite create_PhaseProduct, last_snoc.
  split; [done|]. split; [apply created_row_deletedAt|].
  split; [apply created_row_utm|]. split; [done|].
  apply sanitized_other.
Qed.

Lemma C7_sanitization_witness :
  Scenario.payload !! "utm" = Some (VJson "{}") /\
  let created :=
    sanitized Scenario.req Scenario.store0 Scenario.project1 in
  In (Respond 201 (wrapResponse "req-1" created 1 201))
     (trace (handler Scenario.env Scenario.req Scenario.store0)) /\
  created !! "deletedAt" = None /\
  created !! "utm" = None.
Proof.
  split; [vm_compute; reflexivity|]. intros created.
  assert (In (Respond 201 (wrapResponse "req-1" created 1 201))
            (trace (handler Scenario.env Scenario.req Scenario.store0)))
    as Hin by (vm_compute; do 5 right; left; reflexivity).
  split; [exact Hin|].
  destruct (C7_sanitization Scenario.env Scenario.req Scenario.store0
              (Respond 201 (wrapResponse "req-1" created 1 201)) created
              Hin eq_refl)
    as (Hd & Hu & _).
  split; [exact Hd | exact Hu].
Defined.

(** Whenever the handler answers, the trace holds exactly one publish and
    exactly one emit, both with the same sanitized entity, and the answer
    is 201. *)
Lemma answered_means_both_called env req store code body :
  In (Respond code body) (trace (handler env req store)) ->
  exists project,
    existingProject env store (projectId_of req) = Some project /\
    let created := sanitized req store project in
    let calls := trace (handler env req store) in
    let context := req_enriched req project in
    List.filter is_publish calls
      = [Publish (PROJECT_PHASE_PRODUCT_ADDED env) created (req_id req)] /\
    List.filter is_emit calls
      = [Emit (PROJECT_PHASE_PRODUCT_ADDED env) context created] /\
    times is_publish calls = 1%nat /\
    times is_emit calls = 1%nat /\
    req_id context = req_id req /\
    params_projectId context = params_projectId req /\
    params_workStreamId context = params_workStreamId req /\
    params_workId context = params_workId req /\
    authUser_userId context = authUser_userId req /\
    body_param context = enriched req project /\
    code = 201 /\
    body = wrapResponse (req_id req) created 1 201.
Proof.
  intros Hin.
  destruct (handler_outcomes env req store)
    as [(w & e & _ & Hh)|(existing & project & H1 & H2 & H3)].
  { rewrite Hh in Hin. cbn [trace In] in Hin. by destruct Hin as [?|[]]. }
  exists project. split; [done|]. unfold KEY in *.
  committed_trace env req store existing project H1 H2 H3.
  - repeat (destruct Hin as [Hin|Hin]; [by simplify_eq|]). done.
  - repeat (destruct Hin as [Hin|Hin]; [by simplify_eq|]). done.
  - repeat (destruct Hin as [Hin|Hin]; [by simplify_eq|]). done.
Qed.

(** C8, as stated, fails: with a bus whose [publish] throws the call has
    committed, the publish was invoked once, and the emit is never
    invoked. *)
Lemma C8_commit_without_emit :
  let calls :=
    trace (handler Scenario.env_publish_throws Scenario.req Scenario.store0) in
  (run_createWorkItem Scenario.env_publish_throws Scenario.req
     Scenario.store0).2 = Resolved tt /\
  times is_publish calls = 1%nat /\
  times is_emit calls = 0%nat.
Proof. vm_compute. repeat split. Qed.

(** C8 (dual publish), amended.  Whenever the call commits, the publish is
    invoked exactly once, to the routing key
    [PROJECT_PHASE_PRODUCT_ADDED], with the sanitized entity and with the
    request id as correlation id.  If that publish returns, the emit is
    invoked exactly once, with the same sanitized entity and with the
    request itself (whose [body.param] is by then the enriched payload);
    if the publish throws, the emit is not invoked. *)
Theorem C8_dual_publish_on_commit env req store w :
  run_createWorkItem env req store = (w, Resolved tt) ->
  exists project,
    existingProject env store (projectId_of req) = Some project /\
    let created := sanitized req store project in
    let calls := trace (handler env req store) in
    let context := req_enriched req project in
    let published :=
      pubsub_publish env (PROJECT_PHASE_PRODUCT_ADDED env) created
        (req_id req) in
    newPhaseProduct w = Some created /\
    List.filter is_publish calls
      = [Publish (PROJECT_PHASE_PRODUCT_ADDED env) created (req_id req)] /\
    times is_publish calls = 1%nat /\
    (forall later, published = Returns later ->
       List.filter is_emit calls
         = [Emit (PROJECT_PHASE_PRODUCT_ADDED env) context created] /\
       times is_emit calls = 1%nat) /\
    (forall e, published = Throws e ->
       List.filter is_emit calls = [] /\
       times is_emit calls = 0%nat) /\
    req_id context = req_id req /\
    params_projectId context = params_projectId req /\
    params_workStreamId context = params_workStreamId req /\
    params_workId context = params_workId req /\
    authUser_userId context = authUser_userId req /\
    body_param context = enriched req project.
Proof.
  intros H.
  destruct (run_cases env req store)
    as [[_ R]|[(? & _ & _ & R)|[(? & ? & _ & _ & _ & R)
       |(existing & project & H1 & H2 & H3 & R)]]];
    rewrite R in H; simplify_eq.
  exists project. split; [done|]. fold (KEY env).
  committed_trace env req store existing project H1 H2 H3;
    cbn [newPhaseProduct]; repeat split; intros; by simplify_eq.
Qed.

Lemma C8_dual_publish_on_commit_witness :
  let calls := trace (handler Scenario.env Scenario.req Scenario.store0) in
  let created := sanitized Scenario.req Scenario.store0 Scenario.project1 in
  List.filter is_publish calls
    = [Publish "PROJECT_PHASE_PRODUCT_ADDED" created "req-1"] /\
  List.filter is_emit calls
    = [Emit "PROJECT_PHASE_PRODUCT_ADDED"
         (req_enriched Scenario.req Scenario.project1) created].
Proof.
  intros calls created.
  destruct (C8_dual_publish_on_commit Scenario.env Scenario.req
              Scenario.store0
              (run_createWorkItem Scenario.env Scenario.req Scenario.store0).1)
    as (project & H2 & _ & Hp & _ & He & _).
  - vm_compute; reflexivity.
  - assert (existingProject Scenario.env Scenario.store0
              (projectId_of Scenario.req) = Some Scenario.project1) as E
      by (vm_compute; reflexivity).
    rewrite E in H2. injection H2 as <-.
    split; [exact Hp|]. exact (proj1 (He None eq_refl)).
Defined.

(** Where a response sits in a list of calls that ends with the only one. *)
Lemma respond_is_last (pre before after : list Effect) (r x : Effect) :
  forallb (fun c => negb (is_respond c)) pre = true ->
  is_respond x = true ->
  (pre ++ [r] = before ++ x :: after)%list ->
  before = pre /\ x = r /\ after = [].
Proof.
  revert before. induction pre as [|c pre IH]; intros before Hpre Hx Heq.
  - destruct before as [|b before]; cbn [app] in Heq.
    + by simplify_eq.
    + destruct before; discriminate Heq.
  - cbn [forallb] in Hpre. apply andb_true_iff in Hpre as [Hc Hpre].
    destruct before as [|b before]; cbn [app] in Heq.
    + injection Heq as -> _. by rewrite Hx in Hc.
    + injection Heq as -> Heq.
      destruct (IH before Hpre Hx Heq) as (-> & -> & ->). done.
Qed.

Lemma respond_absent (calls before after : list Effect) (x : Effect) :
  forallb (fun c => negb (is_respond c)) calls = true ->
  is_respond x = true ->
  calls <> (before ++ x :: after)%list.
Proof.
  intros Hall Hx ->. rewrite forallb_app in Hall.
  apply andb_true_iff in Hall as [_ Hall]. cbn [forallb] in Hall.
  by rewrite Hx in Hall.
Qed.

(** C9 (publish before response).  Wherever a response occurs in the trace
    of a run, a publish and an emit both occur before it; the response is
    the last call and its status is 201. *)
Theorem C9_publish_before_response env req store before code body after :
  trace (handler env req store) = (before ++ Respond code body :: after)%list ->
  (exists key payload correlationId,
      In (Publish key payload correlationId) before) /\
  (exists event context created, In (Emit event context created) before) /\
  code = 201 /\
  after = [].
Proof.
  intros Heq.
  destruct (handler_outcomes env req store)
    as [(w & e & _ & Hh)|(existing & project & H1 & H2 & H3)].
  { rewrite Hh in Heq. cbn [trace] in Heq.
    by apply respond_absent in Heq. }
  committed_trace env req store existing project H1 H2 H3.
  - change (?a :: ?b :: ?c :: ?d :: ?f :: [?r])
      with ([a; b; c; d; f] ++ [r])%list in Heq.
    apply respond_is_last in Heq as (-> & Hr & ->); [|done..].
    injection Hr as -> _. cbn [In]. repeat split; eauto 10.
  - by apply respond_absent in Heq.
  - by apply respond_absent in Heq.
Qed.

Lemma C9_publish_before_response_witness :
  exists before body,
    trace (handler Scenario.env Scenario.req Scenario.store0)
      = (before ++ [Respond 201 body])%list /\
    exists key payload correlationId,
      In (Publish key payload correlationId) before.
Proof.
  set (created := sanitized Scenario.req Scenario.store0 Scenario.project1).
  set (row := created_row Scenario.req Scenario.store0 Scenario.project1).
  exists
    [LogDebug "new work created (id# %d, name: %s)"
       [field row "id"; field row "name"];
     LogDebug "Sending event to RabbitMQ bus for phase product %d"
       [field created "id"];
     Publish "PROJECT_PHASE_PRODUCT_ADDED" created "req-1";
     LogDebug "Sending event to Kafka bus for phase product %d"
       [field created "id"];
     Emit "PROJECT_PHASE_PRODUCT_ADDED"
       (req_enriched Scenario.req Scenario.project1) created],
    (wrapResponse "req-1" created 1 201).
  assert (trace (handler Scenario.env Scenario.req Scenario.store0)
          = ([LogDebug "new work created (id# %d, name: %s)"
                [field row "id"; field row "name"];
              LogDebug "Sending event to RabbitMQ bus for phase product %d"
                [field created "id"];
              Publish "PROJECT_PHASE_PRODUCT_ADDED" created "req-1";
              LogDebug "Sending event to Kafka bus for phase product %d"
                [field created "id"];
              Emit "PROJECT_PHASE_PRODUCT_ADDED"
                (req_enriched Scenario.req Scenario.project1) created]
             ++ [Respond 201 (wrapResponse "req-1" created 1 201)])%list)
    as Heq by (vm_compute; reflexivity).
  split; [exact Heq|].
  exact (proj1 (C9_publish_before_response Scenario.env Scenario.req
                  Scenario.store0 _ 201 _ [] Heq)).
Defined.

(** C3, as stated, fails: with a bus whose [publish] throws, the
    transaction has committed (the new row is in the table) and the
    handler's own [catch] receives the failure and hands it to [next];
    the emit and the response are never reached. *)
Lemma C3_publish_throw_is_caught :
  let final :=
    handler Scenario.env_publish_throws Scenario.req Scenario.store0 in
  let created := sanitized Scenario.req Scenario.store0 Scenario.project1 in
  pubsub_publish Scenario.env_publish_throws
    (KEY Scenario.env_publish_throws) created "req-1"
    = Throws Scenario.boom /\
  PhaseProduct (db final)
    = [created_row Scenario.req Scenario.store0 Scenario.project1] /\
  List.filter is_next (trace final) = [Next Scenario.boom] /\
  last (trace final) = Some (Next Scenario.boom) /\
  times is_emit (trace final) = 0%nat /\
  times is_respond (trace final) = 0%nat.
Proof. vm_compute. repeat split. Qed.

(** C3 (publish failures), amended.  Once the transaction has committed,
    the inserted row stays in the table whatever the two publishing calls
    do.  A publish that throws is caught by the handler's [catch] and
    forwarded to [next], and neither the emit nor the response follows; an
    emit that throws is forwarded likewise, after the one publish and with
    no response; a failure that only arrives later, through a promise one of
    the two calls returned, is not seen: the handler answers 201 and never
    calls [next]. *)
Theorem C3_publish_failures env req store w :
  run_createWorkItem env req store = (w, Resolved tt) ->
  exists project,
    existingProject env store (projectId_of req) = Some project /\
    let created := sanitized req store project in
    let final := handler env req store in
    let published := pubsub_publish env (KEY env) created (req_id req) in
    let emitted :=
      app_emit env (KEY env) (req_enriched req project) created in
    db final = db w /\
    PhaseProduct (db final)
      = (PhaseProduct store ++ [created_row req store project])%list /\
    (forall e, published = Throws e ->
       last (trace final) = Some (Next e) /\
       times is_publish (trace final) = 1%nat /\
       times is_emit (trace final) = 0%nat /\
       times is_respond (trace final) = 0%nat) /\
    (forall later e, published = Returns later -> emitted = Throws e ->
       last (trace final) = Some (Next e) /\
       times is_publish (trace final) = 1%nat /\
       times is_emit (trace final) = 1%nat /\
       times is_respond (trace final) = 0%nat) /\
    (forall later later', published = Returns later ->
       emitted = Returns later' ->
       last (trace final)
         = Some (Respond 201 (wrapResponse (req_id req) created 1 201)) /\
       times is_publish (trace final) = 1%nat /\
       times is_emit (trace final) = 1%nat /\
       times is_next (trace final) = 0%nat).
Proof.
  intros H.
  destruct (run_cases env req store)
    as [[_ R]|[(? & _ & _ & R)|[(? & ? & _ & _ & _ & R)
       |(existing & project & H1 & H2 & H3 & R)]]];
    rewrite R in H; simplify_eq.
  exists project. split; [done|]. intros created final published emitted.
  unfold final, published, emitted, created.
  committed_trace env req store existing project H1 H2 H3;
    (split; [done|]); (split; [apply create_PhaseProduct|]);
    repeat split; intros; by simplify_eq.
Qed.

Lemma C3_publish_failures_witness :
  let final :=
    handler Scenario.env_rejects_later Scenario.req Scenario.store0 in
  times is_next (trace final) = 0%nat /\
  PhaseProduct (db final)
    = [created_row Scenario.req Scenario.store0 Scenario.project1].
Proof.
  intros final.
  destruct (C3_publish_failures Scenario.env_rejects_later Scenario.req
              Scenario.store0
              (run_createWorkItem Scenario.env_rejects_later Scenario.req
                 Scenario.store0).1)
    as (project & H2 & _ & Hrows & _ & _ & Hlater).
  - vm_compute; reflexivity.
  - assert (existingProject Scenario.env_rejects_later Scenario.store0
              (projectId_of Scenario.req) = Some Scenario.project1) as E
      by (vm_compute; reflexivity).
    rewrite E in H2. injection H2 as <-.
    split; [|exact Hrows].
    exact (proj2 (proj2 (proj2
      (Hlater (Some Scenario.boom) (Some Scenario.boom) eq_refl eq_refl)))).
Defined.

(** *** The linkage lookup and soft-deleted rows *)

(** What step 1 hands back when it finds a linkage: a Phase row of the
    store with the phase id and the project id, joined to a WorkStream row
    with the work-stream id and the project id; and with paranoid models
    neither of the two is soft-deleted. *)
Lemma existingLinkage_rows env store projectId workStreamId phaseId existing :
  existingLinkage env store projectId workStreamId phaseId = Some existing ->
  In existing (ProjectPhase store) /\
  field existing "id" = VNum phaseId /\
  field existing "projectId" = VNum projectId /\
  (paranoid_ProjectPhase env = true -> field existing "deletedAt" = VNull) /\
  exists ws,
    In ws (WorkStream store) /\
    field ws "id" = VNum workStreamId /\
    field ws "projectId" = VNum projectId /\
    (paranoid_WorkStream env = true -> field ws "deletedAt" = VNull).
Proof.
  unfold existingLinkage, findOne_include. intros H.
  apply find_some in H as [Hin H].
  apply andb_true_iff in H as [Hp Hex].
  apply existsb_exists in Hex as [ws [Hws H]].
  apply andb_true_iff in H as [Hw _].
  assert (forall b w (row : gmap string value),
            matches (scoped b w) row = true ->
            b = true -> field row "deletedAt" = VNull) as Hlive.
  { intros b w row Hm ->. unfold scoped in Hm. rewrite matches_app in Hm.
    apply andb_true_iff in Hm as [_ Hm]. unfold matches in Hm.
    cbn [forallb fst snd] in Hm. rewrite andb_true_r in Hm.
    by apply bool_decide_eq_true in Hm. }
  pose proof (Hlive _ _ _ Hp) as Hplive.
  pose proof (Hlive _ _ _ Hw) as Hwlive.
  apply matches_scoped, matches_two in Hp as [Hid Hpr].
  apply matches_scoped, matches_two in Hw as [Hwid Hwpr].
  repeat split; try done. by exists ws.
Qed.

(** C10, as stated, fails with the models of the specification: in no
    store does step 1 find a linkage when every Phase row with the phase
    id and project id, or every WorkStream row with the work-stream id and
    project id, is soft-deleted. *)
Lemma C10_no_linkage_through_soft_deleted_rows :
  ~ exists (store : Store) (projectId workStreamId phaseId : Z)
      (existing : gmap string value),
      existingLinkage SpecModelled.scenario_env store projectId workStreamId
        phaseId = Some existing /\
      ((forall phase, In phase (ProjectPhase store) ->
          field phase "id" = VNum phaseId ->
          field phase "projectId" = VNum projectId ->
          field phase "deletedAt" <> VNull)
       \/ (forall ws, In ws (WorkStream store) ->
             field ws "id" = VNum workStreamId ->
             field ws "projectId" = VNum projectId ->
             field ws "deletedAt" <> VNull)).
Proof.
  intros (store & projectId & workStreamId & phaseId & existing & H & Hdel).
  apply existingLinkage_rows in H
    as (Hin & Hid & Hpr & Hlive & ws & Hws & Hwid & Hwpr & Hwlive).
  destruct Hdel as [Hdel|Hdel].
  - by apply (Hdel existing Hin Hid Hpr), Hlive.
  - by apply (Hdel ws Hws Hwid Hwpr), Hwlive.
Qed.

(** C10 (soft-deleted rows and the linkage lookup), amended.  The two
    where clauses of step 1 name [id] and [projectId] only, while those of
    the project lookup and of the count ask for an unset [deletedAt]; but
    the models exclude soft-deleted rows from every query, so a store in
    which every matching Phase row, or every matching WorkStream row, is
    soft-deleted has no linkage for step 1 to find, and the call is
    rejected with the status-404 linkage error and inserts nothing. *)
Theorem C10_linkage_excludes_soft_deleted limit key publish emit req store :
  let env := SpecModelled.env limit key publish emit in
  let projectId := projectId_of req in
  let workStreamId := workStreamId_of req in
  let phaseId := phaseId_of req in
  let err := linkageNotFound projectId workStreamId phaseId in
  (forall phase, In phase (ProjectPhase store) ->
     field phase "id" = VNum phaseId ->
     field phase "projectId" = VNum projectId ->
     field phase "deletedAt" <> VNull)
  \/ (forall ws, In ws (WorkStream store) ->
        field ws "id" = VNum workStreamId ->
        field ws "projectId" = VNum projectId ->
        field ws "deletedAt" <> VNull) ->
  map fst (linkage_where projectId phaseId) = ["id"; "projectId"] /\
  map fst (include_where projectId workStreamId) = ["id"; "projectId"] /\
  In ("deletedAt", VNull) (project_where projectId) /\
  In ("deletedAt", VNull) (count_where projectId phaseId) /\
  existingLinkage env store projectId workStreamId phaseId = None /\
  run_createWorkItem env req store = (entry req store, Rejected err) /\
  status err = Some 404 /\
  trace (handler env req store) = [Next err] /\
  db (handler env req store) = store.
Proof.
  intros env projectId workStreamId phaseId err Hdel.
  assert (existingLinkage env store projectId workStreamId phaseId = None)
    as H1.
  { destruct (existingLinkage env store projectId workStreamId phaseId)
      as [existing|] eqn:E; [exfalso|done].
    apply existingLinkage_rows in E
      as (Hin & Hid & Hpr & Hlive & ws & Hws & Hwid & Hwpr & Hwlive).
    destruct Hdel as [Hdel|Hdel].
    - by apply (Hdel existing Hin Hid Hpr), Hlive.
    - by apply (Hdel ws Hws Hwid Hwpr), Hwlive. }
  pose proof (run_linkage_missing env req store H1) as R.
  rewrite (handler_of_rejected env req store _ _ R).
  do 2 (split; [done|]). do 2 (split; [cbn; tauto|]). by repeat split.
Qed.

Lemma C10_linkage_excludes_soft_deleted_witness :
  trace (handler SpecModelled.scenario_env Scenario.req
           SpecModelled.store_deleted_phase)
    = [Next (linkageNotFound 1 10 100)] /\
  trace (handler SpecModelled.scenario_env Scenario.req
           SpecModelled.store_deleted_workStream)
    = [Next (linkageNotFound 1 10 100)].
Proof.
  split.
  - refine (proj1 (proj2 (proj2 (proj2 (proj2 (proj2 (proj2 (proj2
      (C10_linkage_excludes_soft_deleted 2 "PROJECT_PHASE_PRODUCT_ADDED"
         (fun _ _ _ => Returns None) (fun _ _ _ => Returns None)
         Scenario.req SpecModelled.store_deleted_phase _))))))))).
    left. intros phase [<-|[<-|[]]] Hid Hpr.
    + vm_compute in Hpr. discriminate Hpr.
    + vm_compute. discriminate.
  - refine (proj1 (proj2 (proj2 (proj2 (proj2 (proj2 (proj2 (proj2
      (C10_linkage_excludes_soft_deleted 2 "PROJECT_PHASE_PRODUCT_ADDED"
         (fun _ _ _ => Returns None) (fun _ _ _ => Returns None)
         Scenario.req SpecModelled.store_deleted_workStream _))))))))).
    right. intros ws [<-|[<-|[]]] Hid Hpr.
    + vm_compute in Hpr. discriminate Hpr.
    + vm_compute. discriminate.
Defined.

(** With model declarations that add no filter of their own the where
    clauses of step 1 are all there is: a store in which the only matching
    Phase row (or the only matching WorkStream row) is soft-deleted still
    has its linkage found, and the call goes on to insert. *)
Lemma unscoped_linkage_finds_soft_deleted env :
  paranoid_ProjectPhase env = false ->
  paranoid_WorkStream env = false ->
  0 < maxPhaseProductCount env ->
  (forall projectId workStreamId phaseId,
     map fst (linkage_where projectId phaseId) = ["id"; "projectId"] /\
     map fst (include_where projectId workStreamId) = ["id"; "projectId"] /\
     In ("deletedAt", VNull) (project_where projectId) /\
     In ("deletedAt", VNull) (count_where projectId phaseId)) /\
  (ProjectPhase Scenario.store_deleted_phase = [Scenario.phase100_deleted] /\
   field Scenario.phase100_deleted "deletedAt" <> VNull /\
   existingLinkage env Scenario.store_deleted_phase 1 10 100
     = Some Scenario.phase100_deleted /\
   exists w,
     run_createWorkItem env Scenario.req Scenario.store_deleted_phase
       = (w, Resolved tt) /\
     length (PhaseProduct (db w)) = 1%nat) /\
  (WorkStream Scenario.store_deleted_workStream
     = [Scenario.workStream10_deleted] /\
   field Scenario.workStream10_deleted "deletedAt" <> VNull /\
   existingLinkage env Scenario.store_deleted_workStream 1 10 100
     = Some Scenario.phase100 /\
   exists w,
     run_createWorkItem env Scenario.req Scenario.store_deleted_workStream
       = (w, Resolved tt) /\
     length (PhaseProduct (db w)) = 1%nat) /\
  (exists w,
     run_createWorkItem env Scenario.req Scenario.store_deleted_project
       = (w, Rejected (projectNotFound 1))).
Proof.
  intros Hphase Hws Hmax.
  assert (forall store, Project store = [Scenario.project1] ->
            existingProject env store 1 = Some Scenario.project1) as Hproject.
  { intros store Hp. unfold existingProject, findOne. rewrite Hp.
    cbn [List.find]. rewrite matches_scoped_deletedAt by (cbn; tauto).
    reflexivity. }
  assert (forall store, PhaseProduct store = [] ->
            productCount env store 1 100 = 0) as Hcount.
  { intros store Hp. unfold productCount, count. by rewrite Hp. }
  split; [by repeat split; cbn; tauto|].
  split; [|split].
  - assert (existingLinkage env Scenario.store_deleted_phase 1 10 100
            = Some Scenario.phase100_deleted) as H1.
    { unfold existingLinkage. rewrite Hphase, Hws. reflexivity. }
    split; [done|]. split; [by vm_compute|]. split; [exact H1|].
    eexists. split.
    + apply (run_committed env Scenario.req Scenario.store_deleted_phase
               Scenario.phase100_deleted Scenario.project1 H1).
      * by apply Hproject.
      * change (productCount env Scenario.store_deleted_phase 1 100
                < maxPhaseProductCount env). by rewrite Hcount.
    + reflexivity.
  - assert (existingLinkage env Scenario.store_deleted_workStream 1 10 100
            = Some Scenario.phase100) as H1.
    { unfold existingLinkage. rewrite Hphase, Hws. reflexivity. }
    split; [done|]. split; [by vm_compute|]. split; [exact H1|].
    eexists. split.
    + apply (run_committed env Scenario.req
               Scenario.store_deleted_workStream
               Scenario.phase100 Scenario.project1 H1).
      * by apply Hproject.
      * change (productCount env Scenario.store_deleted_workStream 1 100
                < maxPhaseProductCount env). by rewrite Hcount.
    + reflexivity.
  - eexists.
    apply (run_project_missing env Scenario.req
             Scenario.store_deleted_project Scenario.phase100).
    + unfold existingLinkage. rewrite Hphase, Hws. reflexivity.
    + change (existingProject env Scenario.store_deleted_project 1 = None).
      unfold existingProject, findOne.
      destruct (List.find _ _) as [found|] eqn:E; [|done].
      apply find_some in E as [[<-|[]] E].
      apply matches_scoped, matches_two in E as [_ E].
      by vm_compute in E.
Qed.

(** A ProjectPhase model declared paranoid never hands a soft-deleted
    phase to step 1, and the scenario with the soft-deleted phase is then
    answered 404. *)
Lemma paranoid_linkage_is_live env store projectId workStreamId phaseId
    existing :
  paranoid_ProjectPhase env = true ->
  existingLinkage env store projectId workStreamId phaseId = Some existing ->
  field existing "deletedAt" = VNull.
Proof.
  unfold existingLinkage, findOne_include. intros -> H.
  apply find_some in H as [_ H]. apply andb_true_iff in H as [H _].
  unfold scoped in H. rewrite matches_app in H.
  apply andb_true_iff in H as [_ H]. unfold matches in H.
  cbn [forallb fst snd] in H. rewrite andb_true_r in H.
  by apply bool_decide_eq_true in H.
Qed.

Example paranoid_scenario_deleted_phase :
  trace (handler Scenario.env_paranoid Scenario.req
           Scenario.store_deleted_phase)
  = [Next (linkageNotFound 1 10 100)].
Proof. vm_compute. reflexivity. Qed.

(** ** Further properties of the handler *)

Import Serving.

(** What a run leaves in the database: the store as it was, or the store
    with the one new row. *)
Lemma handler_db env req store :
  (db (handler env req store) = store /\
   forall w, run_createWorkItem env req store <> (w, Resolved tt))
  \/
  (exists existing project,
     existingLinkage env store (projectId_of req) (workStreamId_of req)
       (phaseId_of req) = Some existing /\
     existingProject env store (projectId_of req) = Some project /\
     productCount env store (projectId_of req) (phaseId_of req)
       < maxPhaseProductCount env /\
     db (handler env req store) = (create store (enriched req project)).2).
Proof.
  destruct (handler_outcomes env req store)
    as [(w & e & R & Hh)|(existing & project & H1 & H2 & H3)].
  - left. rewrite Hh. split; [done|]. intros w' H. rewrite R in H.
    discriminate H.
  - right. exists existing, project. repeat split; try done.
    by rewrite (handler_committed env req store existing project H1 H2 H3).
Qed.

(** X1 (one answer per request).  Every run of the handler ends with
    exactly one answering call, either [next(err)] or the response, never
    both and never neither, and no call is made after it. *)
Theorem X1_answers_exactly_once env req store :
  let calls := trace (handler env req store) in
  (times is_next calls + times is_respond calls = 1)%nat /\
  exists earlier answer,
    calls = (earlier ++ [answer])%list /\
    is_next answer || is_respond answer = true /\
    times is_next earlier = 0%nat /\
    times is_respond earlier = 0%nat.
Proof.
  intros calls. unfold calls.
  destruct (handler_outcomes env req store)
    as [(w & e & _ & Hh)|(existing & project & H1 & H2 & H3)].
  { rewrite Hh. cbn [trace]. split; [done|]. by exists [], (Next e). }
  committed_trace env req store existing project H1 H2 H3;
    (split; [done|]).
  - eexists [_; _; _; _; _], _. by repeat split.
  - eexists [_; _; _; _; _], _. by repeat split.
  - eexists [_; _; _], _. by repeat split.
Qed.

(** X2 (when the transaction commits).  The transactional part commits
    exactly when step 1 finds the linkage, some Project row of that id is
    not soft-deleted, and fewer live PhaseProduct rows of the pair exist
    than the limit allows. *)
Theorem X2_commits_exactly_when env req store :
  (exists w, run_createWorkItem env req store = (w, Resolved tt))
  <->
  (existingLinkage env store (projectId_of req) (workStreamId_of req)
     (phaseId_of req) <> None /\
   (exists project, LiveProject store (projectId_of req) project) /\
   nonDeletedCount store (projectId_of req) (phaseId_of req)
     < maxPhaseProductCount env).
Proof.
  split.
  - intros [w H].
    destruct (run_cases env req store)
      as [[_ R]|[(? & _ & _ & R)|[(? & ? & _ & _ & _ & R)
         |(existing & project & H1 & H2 & H3 & R)]]];
      rewrite R in H; simplify_eq.
    rewrite productCount_nonDeleted in H3.
    split; [by rewrite H1|]. split; [|done].
    exists project. by apply (existingProject_Live env).
  - intros (H1 & [project Hlive] & H3).
    destruct (existingLinkage env store (projectId_of req)
                (workStreamId_of req) (phaseId_of req))
      as [existing|] eqn:E; [|done].
    destruct (existingProject_some env store _ _ Hlive) as [found H2].
    rewrite <- (productCount_nonDeleted env) in H3.
    eexists. apply (run_committed env req store existing found E H2 H3).
Qed.

(** X3 (when the answer is 201).  The handler writes the 201 response
    exactly when the transaction commits and neither the publish nor the
    emit throws; what either of them reports later does not matter. *)
Theorem X3_responds_exactly_when env req store :
  (exists body, In (Respond 201 body) (trace (handler env req store)))
  <->
  (exists w project later later',
     run_createWorkItem env req store = (w, Resolved tt) /\
     existingProject env store (projectId_of req) = Some project /\
     pubsub_publish env (PROJECT_PHASE_PRODUCT_ADDED env)
       (sanitized req store project) (req_id req) = Returns later /\
     app_emit env (PROJECT_PHASE_PRODUCT_ADDED env)
       (req_enriched req project) (sanitized req store project)
       = Returns later').
Proof.
  split.
  - intros [body Hin].
    destruct (handler_outcomes env req store)
      as [(w & e & _ & Hh)|(existing & project & H1 & H2 & H3)].
    { rewrite Hh in Hin. cbn [trace In] in Hin. by destruct Hin as [?|[]]. }
    pose proof (run_committed env req store existing project H1 H2 H3) as R.
    unfold KEY in *.
    committed_trace env req store existing project H1 H2 H3.
    + do 4 eexists. by repeat split.
    + repeat (destruct Hin as [Hin|Hin]; [by simplify_eq|]). done.
    + repeat (destruct Hin as [Hin|Hin]; [by simplify_eq|]). done.
  - intros (w & project & later & later' & R & H2 & Hp & He).
    destruct (run_cases env req store)
      as [[_ R']|[(? & _ & _ & R')|[(? & ? & _ & _ & _ & R')
         |(existing & found & H1 & H2' & H3 & R')]]];
      rewrite R' in R; simplify_eq.
    rewrite (handler_committed env req store existing project H1 H2 H3).
    unfold KEY. rewrite Hp, He. eexists. cbn [trace app In]. eauto 10.
Qed.

(** X4 (the handler only appends).  A run never changes the Project, the
    ProjectPhase or the WorkStream table, nor the association between
    phases and work streams, and it keeps every PhaseProduct row that was
    there, in place: at most one row is added, at the end. *)
Theorem X4_only_appends env req store :
  let final := db (handler env req store) in
  Project final = Project store /\
  ProjectPhase final = ProjectPhase store /\
  WorkStream final = WorkStream store /\
  phase_work_streams final = phase_work_streams store /\
  (PhaseProduct final = PhaseProduct store \/
   exists row, PhaseProduct final = (PhaseProduct store ++ [row])%list).
Proof.
  intros final. unfold final.
  destruct (handler_db env req store)
    as [[-> _]|(existing & project & _ & _ & _ & ->)].
  - repeat split. by left.
  - repeat split. right. by eexists.
Qed.

(** X5 (who created the row).  Whenever the call commits, the row that was
    inserted has [createdBy] and [updatedBy] equal to the authenticated
    user's id, whatever the payload held under these names, and so has the
    entity that is published and returned. *)
Theorem X5_stamped_with_acting_user env req store w :
  run_createWorkItem env req store = (w, Resolved tt) ->
  exists row entity,
    last (PhaseProduct (db w)) = Some row /\
    newPhaseProduct w = Some entity /\
    row !! "createdBy" = Some (authUser_userId req) /\
    row !! "updatedBy" = Some (authUser_userId req) /\
    entity !! "createdBy" = Some (authUser_userId req) /\
    entity !! "updatedBy" = Some (authUser_userId req).
Proof.
  intros H.
  destruct (run_cases env req store)
    as [[_ R]|[(? & _ & _ & R)|[(? & ? & _ & _ & _ & R)
       |(existing & project & H1 & H2 & H3 & R)]]];
    rewrite R in H; simplify_eq.
  exists (created_row req store project), (sanitized req store project).
  cbn [db newPhaseProduct]. rewrite create_PhaseProduct, last_snoc.
  rewrite !sanitized_other by done.
  repeat split;
    auto using created_row_createdBy, created_row_updatedBy.
Qed.

Lemma X5_stamped_with_acting_user_witness :
  exists row,
    last (PhaseProduct
            (db (run_createWorkItem Scenario.env Scenario.req
                   Scenario.store0).1)) = Some row /\
    row !! "createdBy" = Some (VNum 42).
Proof.
  destruct (X5_stamped_with_acting_user Scenario.env Scenario.req
              Scenario.store0
              (run_createWorkItem Scenario.env Scenario.req Scenario.store0).1)
    as (row & entity & Hlast & _ & Hc & _).
  - vm_compute; reflexivity.
  - exists row. split; [exact Hlast | exact Hc].
Defined.

(** The payload object once the handler is done with it. *)
Lemma handler_data env req store :
  (data (handler env req store) = defaulted req /\
   (existingLinkage env store (projectId_of req) (workStreamId_of req)
      (phaseId_of req) = None \/
    existingProject env store (projectId_of req) = None))
  \/
  (exists existing project,
     existingLinkage env store (projectId_of req) (workStreamId_of req)
       (phaseId_of req) = Some existing /\
     existingProject env store (projectId_of req) = Some project /\
     data (handler env req store) = enriched req project).
Proof.
  destruct (run_cases env req store)
    as [[H1 R]|[(? & _ & H2 & R)|[(existing & project & H1 & H2 & _ & R)
       |(existing & project & H1 & H2 & H3 & R)]]].
  - left. rewrite (handler_of_rejected env req store _ _ R). auto.
  - left. rewrite (handler_of_rejected env req store _ _ R). auto.
  - right. exists existing, project.
    by rewrite (handler_of_rejected env req store _ _ R).
  - right. exists existing, project.
    by rewrite (handler_committed env req store existing project H1 H2 H3).
Qed.

Lemma defaulted_lookup req :
  defaulted req !! "projectId" = Some (VNum (projectId_of req)) /\
  defaulted req !! "phaseId" = Some (VNum (phaseId_of req)) /\
  defaulted req !! "createdBy" = Some (authUser_userId req) /\
  defaulted req !! "updatedBy" = Some (authUser_userId req).
Proof. open_objects. repeat split; by simplify_map_eq. Qed.

Lemma defaulted_other req k :
  k ∉ defaults_assigned -> defaulted req !! k = body_param req !! k.
Proof.
  unfold defaults_assigned. rewrite !not_elem_of_cons. intros Ha.
  destruct_and!. open_objects. by rewrite !lookup_insert_ne.
Qed.

Lemma enriched_lookup req project :
  enriched req project !! "projectId" = Some (VNum (projectId_of req)) /\
  enriched req project !! "phaseId" = Some (VNum (phaseId_of req)) /\
  enriched req project !! "createdBy" = Some (authUser_userId req) /\
  enriched req project !! "updatedBy" = Some (authUser_userId req) /\
  enriched req project !! "directProjectId"
    = Some (field project "directProjectId") /\
  enriched req project !! "billingAccountId"
    = Some (field project "billingAccountId").
Proof. open_objects. repeat split; by simplify_map_eq. Qed.

Lemma enriched_other req project k :
  k ∉ assigned -> enriched req project !! k = body_param req !! k.
Proof.
  unfold assigned, defaults_assigned. cbn [app].
  rewrite !not_elem_of_cons. intros Ha. destruct_and!.
  open_objects. by rewrite !lookup_insert_ne.
Qed.

(** X7 (the request body is changed in place, and stays changed).  After
    every run, rejected or not, [req.body.param] holds the path's
    [projectId] and [phaseId] and the user's id as [createdBy] and
    [updatedBy], and every property the handler does not assign is as the
    caller sent it.  Once step 2 has found the project, and even if the
    call is then rejected for the quota, [directProjectId] and
    [billingAccountId] are the project's; when step 1 or step 2 fails they
    are still the caller's. *)
Theorem X7_body_mutated_in_place env req store :
  let body := data (handler env req store) in
  body !! "projectId" = Some (VNum (projectId_of req)) /\
  body !! "phaseId" = Some (VNum (phaseId_of req)) /\
  body !! "createdBy" = Some (authUser_userId req) /\
  body !! "updatedBy" = Some (authUser_userId req) /\
  (forall k, k ∉ assigned -> body !! k = body_param req !! k) /\
  (forall existing project,
     existingLinkage env store (projectId_of req) (workStreamId_of req)
       (phaseId_of req) = Some existing ->
     existingProject env store (projectId_of req) = Some project ->
     body !! "directProjectId" = Some (field project "directProjectId") /\
     body !! "billingAccountId" = Some (field project "billingAccountId")) /\
  (existingLinkage env store (projectId_of req) (workStreamId_of req)
     (phaseId_of req) = None \/
   existingProject env store (projectId_of req) = None ->
   body !! "directProjectId" = body_param req !! "directProjectId" /\
   body !! "billingAccountId" = body_param req !! "billingAccountId").
Proof.
  intros body. unfold body.
  destruct (handler_data env req store)
    as [[-> Hnone]|(existing & project & H1 & H2 & ->)].
  - destruct (defaulted_lookup req) as (? & ? & ? & ?).
    do 4 (split; [done|]). split; [|split].
    + intros k Hk. apply defaulted_other. unfold assigned in Hk.
      apply not_elem_of_app in Hk. tauto.
    + intros existing project Hl Hp. destruct Hnone; congruence.
    + intros _. by rewrite !defaulted_other
        by (refine (bool_decide_unpack _ _); vm_compute; exact I).
  - destruct (enriched_lookup req project) as (? & ? & ? & ? & ? & ?).
    do 4 (split; [done|]). split; [|split].
    + intros k Hk. by apply enriched_other.
    + intros existing' project' H1' H2'. by simplify_eq.
    + intros [Hn|Hn]; congruence.
Qed.

(** X8 (a limit of zero or less).  With [maxPhaseProductCount] not
    positive no request is ever answered 201: nothing is inserted, nothing
    is published or emitted, and a request whose linkage and project are
    found is rejected with the status-400 error. *)
Theorem X8_non_positive_limit env req store :
  maxPhaseProductCount env <= 0 ->
  let final := handler env req store in
  db final = store /\
  times is_respond (trace final) = 0%nat /\
  times is_publish (trace final) = 0%nat /\
  times is_emit (trace final) = 0%nat /\
  (forall existing project,
     existingLinkage env store (projectId_of req) (workStreamId_of req)
       (phaseId_of req) = Some existing ->
     existingProject env store (projectId_of req) = Some project ->
     trace final = [Next (quotaExceeded env)]).
Proof.
  intros Hmax final. unfold final.
  assert (forall p ph, 0 <= productCount env store p ph) as Hpos
    by (intros; unfold productCount, count; lia).
  destruct (handler_outcomes env req store)
    as [(w & e & R & Hh)|(existing & project & H1 & H2 & H3)].
  2: { specialize (Hpos (projectId_of req) (phaseId_of req)). lia. }
  rewrite Hh. cbn [db trace]. do 4 (split; [done|]).
  intros existing project H1 H2.
  rewrite (run_quota_exceeded env req store existing project H1 H2) in R.
  - by simplify_eq.
  - specialize (Hpos (projectId_of req) (phaseId_of req)). lia.
Qed.

Lemma X8_non_positive_limit_witness :
  trace (handler (env_limit 0) Scenario.req Scenario.store0)
  = [Next (quotaExceeded (env_limit 0))].
Proof.
  refine (proj2 (proj2 (proj2 (proj2
    (X8_non_positive_limit (env_limit 0) Scenario.req Scenario.store0 _))))
    Scenario.phase100 Scenario.project1 _ _).
  - vm_compute. discriminate.
  - vm_compute; reflexivity.
  - vm_compute; reflexivity.
Defined.

(** What the handler leaves in the database is what the transactional part
    left there. *)
Lemma handler_db_is_run env req store :
  db (handler env req store) = db (run_createWorkItem env req store).1.
Proof.
  destruct (run_cases env req store)
    as [[_ R]|[(? & _ & _ & R)|[(? & ? & _ & _ & _ & R)
       |(existing & project & H1 & H2 & H3 & R)]]].
  1-3: by rewrite (handler_of_rejected env req store _ _ R), R.
  by rewrite (handler_committed env req store existing project H1 H2 H3), R.
Qed.

(** X9 (the buses do not decide what is stored).  Two environments with
    the same limit and the same model options leave the same database
    after serving the same request on the same store, however differently
    their publish and emit behave. *)
Theorem X9_store_independent_of_buses env env' req store :
  same_settings env env' ->
  db (handler env req store) = db (handler env' req store).
Proof.
  intros (Hmax & Hpp & Hws & Hp & Hprod).
  rewrite !handler_db_is_run.
  destruct env, env'. cbn in Hmax, Hpp, Hws, Hp, Hprod. subst.
  reflexivity.
Qed.

Lemma X9_store_independent_of_buses_witness :
  db (handler Scenario.env Scenario.req Scenario.store0)
  = db (handler Scenario.env_publish_throws Scenario.req Scenario.store0).
Proof.
  apply X9_store_independent_of_buses.
  repeat split.
Defined.

(** ** Counting across runs *)

Lemma nonDeletedCount_create_other req store project projectId phaseId :
  projectId <> projectId_of req \/ phaseId <> phaseId_of req ->
  nonDeletedCount (create store (enriched req project)).2 projectId phaseId
  = nonDeletedCount store projectId phaseId.
Proof.
  intros Hne. unfold nonDeletedCount.
  rewrite create_PhaseProduct, filter_app, filter_cons, filter_nil.
  rewrite decide_False; [by rewrite app_nil_r|].
  fold (created_row req store project). unfold field.
  rewrite created_row_projectId, created_row_phaseId.
  intros (Hp & Hph & _). cbn in Hp, Hph. destruct Hne; congruence.
Qed.

Lemma nonDeletedCount_nonneg store projectId phaseId :
  0 <= nonDeletedCount store projectId phaseId.
Proof. unfold nonDeletedCount. lia. Qed.

(** The live count of each pair after a run, whether it committed or not. *)
Lemma nonDeletedCount_handler env req store projectId phaseId :
  (db (handler env req store) = store /\
   (existingLinkage env store (projectId_of req) (workStreamId_of req)
      (phaseId_of req) = None \/
    existingProject env store (projectId_of req) = None \/
    maxPhaseProductCount env
      <= nonDeletedCount store (projectId_of req) (phaseId_of req)))
  \/
  (nonDeletedCount store (projectId_of req) (phaseId_of req)
     < maxPhaseProductCount env /\
   nonDeletedCount (db (handler env req store)) (projectId_of req)
     (phaseId_of req)
   = nonDeletedCount store (projectId_of req) (phaseId_of req) + 1 /\
   (projectId <> projectId_of req \/ phaseId <> phaseId_of req ->
    nonDeletedCount (db (handler env req store)) projectId phaseId
    = nonDeletedCount store projectId phaseId)).
Proof.
  destruct (run_cases env req store)
    as [[H1 R]|[(? & _ & H2 & R)|[(? & ? & _ & _ & H3 & R)
       |(existing & project & H1 & H2 & H3 & R)]]].
  1-3: left; rewrite (handler_of_rejected env req store _ _ R);
       rewrite ?productCount_nonDeleted in *; auto.
  right. rewrite (handler_committed env req store existing project H1 H2 H3).
  cbn [db]. rewrite productCount_nonDeleted in H3.
  split; [done|]. split; [apply nonDeletedCount_create|].
  apply nonDeletedCount_create_other.
Qed.

Lemma handler_tables env req store :
  Project (db (handler env req store)) = Project store /\
  ProjectPhase (db (handler env req store)) = ProjectPhase store /\
  WorkStream (db (handler env req store)) = WorkStream store /\
  phase_work_streams (db (handler env req store)) = phase_work_streams store.
Proof.
  destruct (handler_db env req store)
    as [[-> _]|(existing & project & _ & _ & _ & ->)]; by repeat split.
Qed.

Lemma existingLinkage_tables env store store' projectId workStreamId phaseId :
  ProjectPhase store' = ProjectPhase store ->
  WorkStream store' = WorkStream store ->
  phase_work_streams store' = phase_work_streams store ->
  existingLinkage env store' projectId workStreamId phaseId
  = existingLinkage env store projectId workStreamId phaseId.
Proof.
  intros Hp Hw Ha. unfold existingLinkage, findOne_include, associated.
  by rewrite Hp, Hw, Ha.
Qed.

Lemma serve_cons env req reqs store :
  serve env (req :: reqs) store = serve env reqs (db (handler env req store)).
Proof. reflexivity. Qed.

(** X10 (other phases are not touched).  A run for one pair of project and
    phase leaves the number of live PhaseProduct rows of every other pair
    as it was. *)
Theorem X10_other_pairs_unchanged env req store projectId phaseId :
  projectId <> projectId_of req \/ phaseId <> phaseId_of req ->
  nonDeletedCount (db (handler env req store)) projectId phaseId
  = nonDeletedCount store projectId phaseId.
Proof.
  intros Hne.
  destruct (nonDeletedCount_handler env req store projectId phaseId)
    as [[-> _]|(_ & _ & H)]; [done | by apply H].
Qed.

Lemma X10_other_pairs_unchanged_witness :
  nonDeletedCount
    (db (handler Scenario.env Scenario.req Scenario.store1)) 1 101 = 0.
Proof.
  refine (eq_trans
    (X10_other_pairs_unchanged Scenario.env Scenario.req
       Scenario.store1 1 101 _) _).
  - right. vm_compute. discriminate.
  - vm_compute; reflexivity.
Defined.

(** X11 (the quota is kept by requests served in turn).  If no pair of
    project and phase holds more live PhaseProduct rows than the limit,
    then none does after any sequence of requests has been served one
    after the other, whatever the requests and whatever the buses do. *)
Theorem X11_quota_kept_in_turn env reqs store :
  within_quota env store -> within_quota env (serve env reqs store).
Proof.
  revert store. induction reqs as [|req reqs IH]; intros store Hq; [done|].
  rewrite serve_cons. apply IH. intros projectId phaseId.
  destruct (nonDeletedCount_handler env req store projectId phaseId)
    as [[-> _]|(Hlt & Hsame & Hother)]; [apply Hq|].
  destruct (decide (projectId = projectId_of req)) as [->|Hp].
  - destruct (decide (phaseId = phaseId_of req)) as [->|Hph].
    + rewrite Hsame. lia.
    + rewrite Hother by auto. apply Hq.
  - rewrite Hother by auto. apply Hq.
Qed.

Lemma X11_quota_kept_in_turn_witness :
  within_quota Scenario.env
    (serve Scenario.env [Scenario.req; req_other_phase; Scenario.req]
       Scenario.store1).
Proof.
  apply X11_quota_kept_in_turn.
  intros projectId phaseId. unfold nonDeletedCount.
  pose proof (length_filter
    (fun row : gmap string value =>
       field row "projectId" = VNum projectId /\
       field row "phaseId" = VNum phaseId /\
       field row "deletedAt" = VNull)
    (PhaseProduct Scenario.store1)) as Hlen.
  change (length (PhaseProduct Scenario.store1)) with 2%nat in Hlen.
  change (maxPhaseProductCount Scenario.env) with 2. lia.
Defined.

(** X12 (filling a phase).  With the linkage found, a live project and no
    more live rows than the limit, serving the same request [n] times in
    turn leaves [min (c + n) N] live rows for its pair, where [c] is the
    number there was and [N] the limit: the calls commit one row each
    until the limit is reached and are rejected from then on. *)
Theorem X12_filling_a_phase env req store existing project n :
  let projectId := projectId_of req in
  let phaseId := phaseId_of req in
  existingLinkage env store projectId (workStreamId_of req) phaseId
    = Some existing ->
  LiveProject store projectId project ->
  nonDeletedCount store projectId phaseId <= maxPhaseProductCount env ->
  nonDeletedCount (serve env (replicate n req) store) projectId phaseId
  = Z.min (nonDeletedCount store projectId phaseId + Z.of_nat n)
          (maxPhaseProductCount env).
Proof.
  intros projectId phaseId. subst projectId phaseId. revert store.
  induction n as [|n IH]; intros store H1 Hlive Hle.
  { cbn [replicate serve fold_left]. lia. }
  cbn [replicate]. rewrite serve_cons.
  destruct (handler_tables env req store) as (Hp & Hph & Hws & Ha).
  assert (existingLinkage env (db (handler env req store)) (projectId_of req)
            (workStreamId_of req) (phaseId_of req) = Some existing) as H1'
    by (by rewrite (existingLinkage_tables env store)).
  assert (LiveProject (db (handler env req store)) (projectId_of req) project)
    as Hlive' by (unfold LiveProject in *; by rewrite Hp).
  destruct (existingProject_some env store (projectId_of req) project Hlive)
    as [found H2].
  destruct (nonDeletedCount_handler env req store (projectId_of req)
              (phaseId_of req))
    as [[Hdb [Hn|[Hn|Hge]]]|(Hlt & Hsame & _)].
  - congruence.
  - congruence.
  - rewrite IH by (rewrite ?Hdb; done). rewrite Hdb. lia.
  - rewrite IH by (rewrite ?Hsame; done || lia). rewrite Hsame. lia.
Qed.

Lemma X12_filling_a_phase_witness :
  nonDeletedCount
    (serve Scenario.env (replicate 5 Scenario.req) Scenario.store0) 1 100 = 2.
Proof.
  refine (eq_trans
    (X12_filling_a_phase Scenario.env Scenario.req Scenario.store0
       Scenario.phase100 Scenario.project1 5 _ _ _) _).
  - vm_compute; reflexivity.
  - repeat split; [left|..]; vm_compute; reflexivity.
  - vm_compute. discriminate.
  - vm_compute; reflexivity.
Defined.
